(** * Expense Tracker: the record validator and the ledger of
    [expense_tracker.py], embedded and verified.

    The embedding follows the source class by class: [Expense] (constructor,
    [_validate_inputs], [to_dict], [from_dict], [__eq__]), [JSONRepository]
    ([load], [save]) and [ExpenseManager] ([add_expense], [delete_expense],
    the aggregates and the filters).

    Conventions.
    - A Python [str] is a list of Unicode code points; [str.isdigit],
      [int] on digits and [str.strip] follow CPython's character tables
      (Unicode 14.0, the one of CPython 3.11).
    - A Python [float] is an IEEE 754 binary64 number: Rocq's primitive floats.
    - A call that can raise returns a [result]: its value, or the exception.
    - The wall clock ([datetime.now().isoformat()]) and the outcome of writing
      the file are inputs of the operations that use them. *)

From Stdlib Require Import ZArith NArith List String Ascii Bool Lia Floats.
Import ListNotations.

(* ================================================================== *)
(** * Python strings *)
(* ================================================================== *)

Module PyStr.

(** A code point, and a string as the sequence of its code points. *)
Definition char := N.
Definition str := list char.

(** A literal written with ASCII (or Latin-1) characters. *)
Definition lit (s : string) : str :=
  List.map N_of_ascii (list_ascii_of_string s).

Definition len (s : str) : Z := Z.of_nat (List.length s).

Definition in_range (c : char) (r : N * N) : bool :=
  (fst r <=? c)%N && (c <=? snd r)%N.

Definition in_ranges (rs : list (N * N)) (c : char) : bool :=
  existsb (in_range c) rs.

(** Decimal digits (general category Nd): every run starts at a digit zero and
    holds a whole number of tens, so the value of a digit is its offset in
    the run modulo 10.  Each pair is (first code point, number of
    characters). *)
Definition decimal_runs : list (N * N) :=
  [ (0x30, 10); (0x660, 10); (0x6f0, 10); (0x7c0, 10); (0x966, 10);
    (0x9e6, 10); (0xa66, 10); (0xae6, 10); (0xb66, 10); (0xbe6, 10);
    (0xc66, 10); (0xce6, 10); (0xd66, 10); (0xde6, 10); (0xe50, 10);
    (0xed0, 10); (0xf20, 10); (0x1040, 10); (0x1090, 10); (0x17e0, 10);
    (0x1810, 10); (0x1946, 10); (0x19d0, 10); (0x1a80, 10); (0x1a90, 10);
    (0x1b50, 10); (0x1bb0, 10); (0x1c40, 10); (0x1c50, 10); (0xa620, 10);
    (0xa8d0, 10); (0xa900, 10); (0xa9d0, 10); (0xa9f0, 10); (0xaa50, 10);
    (0xabf0, 10); (0xff10, 10); (0x104a0, 10); (0x10d30, 10); (0x11066, 10);
    (0x110f0, 10); (0x11136, 10); (0x111d0, 10); (0x112f0, 10);
    (0x11450, 10); (0x114d0, 10); (0x11650, 10); (0x116c0, 10);
    (0x11730, 10); (0x118e0, 10); (0x11950, 10); (0x11c50, 10);
    (0x11d50, 10); (0x11da0, 10); (0x16a60, 10); (0x16ac0, 10);
    (0x16b50, 10); (0x1d7ce, 50); (0x1e140, 10); (0x1e2f0, 10);
    (0x1e950, 10); (0x1fbf0, 10) ]%N.

(** Characters with a digit value that are not decimal digits (superscripts,
    circled digits and the like): [str.isdigit] accepts them, [int] does
    not.  Each pair is (first, last). *)
Definition other_digit_ranges : list (N * N) :=
  [ (0xb2, 0xb3); (0xb9, 0xb9); (0x1369, 0x1371); (0x19da, 0x19da);
    (0x2070, 0x2070); (0x2074, 0x2079); (0x2080, 0x2089); (0x2460, 0x2468);
    (0x2474, 0x247c); (0x2488, 0x2490); (0x24ea, 0x24ea); (0x24f5, 0x24fd);
    (0x24ff, 0x24ff); (0x2776, 0x277e); (0x2780, 0x2788); (0x278a, 0x2792);
    (0x10a40, 0x10a43); (0x10e60, 0x10e68); (0x11052, 0x1105a);
    (0x1f100, 0x1f10a) ]%N.

(** White space for [str.strip] and [str.isspace].  Each pair is
    (first, last). *)
Definition space_ranges : list (N * N) :=
  [ (0x9, 0xd); (0x1c, 0x20); (0x85, 0x85); (0xa0, 0xa0); (0x1680, 0x1680);
    (0x2000, 0x200a); (0x2028, 0x2029); (0x202f, 0x202f); (0x205f, 0x205f);
    (0x3000, 0x3000) ]%N.

(** The decimal value of a character, when it is a decimal digit. *)
Fixpoint decimal_in (runs : list (N * N)) (c : char) : option Z :=
  match runs with
  | [] => None
  | (first, count) :: rest =>
      if ((first <=? c) && (c <? first + count))%N
      then Some (Z.of_N ((c - first) mod 10))
      else decimal_in rest c
  end.

Definition decimal_value (c : char) : option Z := decimal_in decimal_runs c.

Definition isdecimal_char (c : char) : bool :=
  match decimal_value c with Some _ => true | None => false end.

Definition isdigit_char (c : char) : bool :=
  isdecimal_char c || in_ranges other_digit_ranges c.

Definition isspace_char (c : char) : bool := in_ranges space_ranges c.

(** The ten characters '0' .. '9'. *)
Definition is_ascii_digit (c : char) : bool :=
  ((0x30 <=? c) && (c <=? 0x39))%N.

(** [s.isdigit()]: true when [s] is not empty and all its characters are
    digits. *)
Definition isdigit (s : str) : bool :=
  match s with
  | [] => false
  | _ => forallb isdigit_char s
  end.

(** [s[i:j]] for 0 <= i <= j. *)
Definition slice (s : str) (i j : nat) : str := firstn (j - i) (skipn i s).

(** [s.strip()]: white space removed at both ends. *)
Fixpoint lstrip (s : str) : str :=
  match s with
  | [] => []
  | c :: rest => if isspace_char c then lstrip rest else s
  end.

Definition rstrip (s : str) : str := rev (lstrip (rev s)).

Definition strip (s : str) : str := rstrip (lstrip s).

(** [int(s)] for a string [s] of digit characters, as [_validate_inputs]
    calls it on the slices of a date that passed [isdigit]: the number
    written by the decimal values of its characters, and [ValueError]
    ([None]) when a character is not a decimal digit or [s] is empty.
    (Signs, underscores and surrounding white space, which [int] also reads,
    do not occur in such a string.) *)
Fixpoint int_digits (acc : Z) (s : str) : option Z :=
  match s with
  | [] => Some acc
  | c :: rest =>
      match decimal_value c with
      | Some d => int_digits (10 * acc + d) rest
      | None => None
      end
  end.

Definition int (s : str) : option Z :=
  match s with
  | [] => None
  | _ => int_digits 0 s
  end.

(** [s == t]. *)
Fixpoint eqb (s t : str) : bool :=
  match s, t with
  | [], [] => true
  | c :: s', d :: t' => (c =? d)%N && eqb s' t'
  | _, _ => false
  end.

(** [s <= t]: the lexicographic order of the code points, a proper prefix
    being smaller. *)
Fixpoint leb (s t : str) : bool :=
  match s, t with
  | [], _ => true
  | _ :: _, [] => false
  | c :: s', d :: t' =>
      if (c <? d)%N then true
      else if (c =? d)%N then leb s' t'
      else false
  end.

(** [x in l] for a list of strings. *)
Definition mem (x : str) (l : list str) : bool := existsb (eqb x) l.

(** The lexicographic order, as a relation: [s <= t] when [s] is a prefix
    of [t], or at the first position where they differ the character of [s]
    is the smaller. *)
Inductive lex_le : str -> str -> Prop :=
| lex_nil t : lex_le [] t
| lex_lt c d s t : (c < d)%N -> lex_le (c :: s) (d :: t)
| lex_eq c s t : lex_le s t -> lex_le (c :: s) (c :: t).

End PyStr.

Abbreviation str := PyStr.str.

(* ================================================================== *)
(** * Values, exceptions *)
(* ================================================================== *)

(** The result of a call that can raise. *)
Inductive result (E A : Type) : Type :=
| Ok (a : A)
| Raise (e : E).

Arguments Ok {E A} a.
Arguments Raise {E A} e.

Definition bind {E A B : Type} (r : result E A) (k : A -> result E B)
  : result E B :=
  match r with
  | Ok a => k a
  | Raise e => Raise e
  end.

Notation "x <- r ;; k" := (bind r (fun x => k))
  (at level 61, r at next level, right associativity).
Notation "r ;;; k" := (bind r (fun _ => k))
  (at level 61, right associativity).

(** What [_validate_inputs] can be given as [amount]: a float, as the
    annotation says and as the menu passes it ([float(input(...))]), or
    [None] (a JSON [null] in the data file), on which [float(amount)] raises
    [TypeError].  Integers, booleans and numeric strings, which [float]
    converts and the constructor would store as given, are outside this
    model: the ledgers here are those of data files and calls whose amounts
    are floats or null. *)
Inductive pyvalue : Type :=
| PyFloat (f : float)
| PyNone.

(** [float(v)]: [None] stands for [TypeError]. *)
Definition to_float (v : pyvalue) : option float :=
  match v with
  | PyFloat f => Some f
  | PyNone => None
  end.

(** [float(n)] for the length of a list: the nearest binary64 number. *)
Definition float_of_nat (n : nat) : float :=
  SF2Prim (binary_normalize prec emax (Z.of_nat n) 0 false).

(** [ValidationError], one constructor for each [raise] of
    [_validate_inputs], in the order of the source; the comment gives the
    message. *)
Inductive ValidationError : Type :=
| MalformedDate         (* Invalid date format: '..'. Expected DDMMYYYY format. *)
| DateOutOfRange        (* Invalid date values: Day=.., Month=.., Year=.. *)
| DateValidationFailed  (* Date validation failed: .. (int raised ValueError) *)
| UnknownCategory       (* Invalid category: '..'. Valid categories: .. *)
| EmptyDescription      (* Description cannot be empty. *)
| DescriptionTooLong    (* Description must be 100 characters or less. *)
| NonPositiveAmount     (* Amount must be greater than 0. *)
| AmountTooLarge        (* Amount exceeds reasonable limit (1,000,000). *)
| InvalidAmount.        (* Invalid amount: .. (float raised) *)

(** [DataPersistenceError]. *)
Inductive DataPersistenceError : Type :=
| PersistenceError.

(** [ExpenseCategory]: the values of the enumeration, in its order. *)
Definition ExpenseCategory : list str :=
  List.map PyStr.lit
    ["Food"; "Travel"; "Shopping"; "Entertainment"; "Utilities"; "Health";
     "Education"; "Other"]%string.

(* ================================================================== *)
(** * class Expense *)
(* ================================================================== *)

Module Expense.

Record t : Type := mk {
  date : str;
  category : str;
  description : str;
  amount : float;
  created_at : str
}.

(** The date checks of [_validate_inputs]. *)
Definition validate_date (date : str) : result ValidationError unit :=
  if PyStr.eqb date [] || negb (PyStr.len date =? 8)%Z
     || negb (PyStr.isdigit date)
  then Raise MalformedDate
  else
    match PyStr.int (PyStr.slice date 0 2),
          PyStr.int (PyStr.slice date 2 4),
          PyStr.int (PyStr.slice date 4 8) with
    | Some day, Some month, Some year =>
        if negb ((1 <=? day) && (day <=? 31) && (1 <=? month)
                 && (month <=? 12) && (1900 <=? year) && (year <=? 2100))%Z
        then Raise DateOutOfRange
        else Ok tt
    | _, _, _ => Raise DateValidationFailed
    end.

(** The category check. *)
Definition validate_category (category : str)
  : result ValidationError unit :=
  let valid_categories := ExpenseCategory in
  if negb (PyStr.mem category valid_categories)
  then Raise UnknownCategory
  else Ok tt.

(** The description checks. *)
Definition validate_description (description : str)
  : result ValidationError unit :=
  if PyStr.eqb description []
     || (PyStr.len (PyStr.strip description) =? 0)%Z
  then Raise EmptyDescription
  else if (100 <? PyStr.len description)%Z
  then Raise DescriptionTooLong
  else Ok tt.

(** The amount checks. *)
Definition validate_amount (amount : pyvalue)
  : result ValidationError unit :=
  match to_float amount with
  | Some amount_float =>
      if (amount_float <=? 0)%float then Raise NonPositiveAmount
      else if (1000000 <? amount_float)%float then Raise AmountTooLarge
      else Ok tt
  | None => Raise InvalidAmount
  end.

(** [Expense._validate_inputs]. *)
Definition _validate_inputs (date category description : str)
  (amount : pyvalue) : result ValidationError unit :=
  validate_date date ;;;
  validate_category category ;;;
  validate_description description ;;;
  validate_amount amount.

(** [Expense.__init__]; [now] is [datetime.now().isoformat()] at the call.
    The record keeps [amount] as given: a float, since validation has
    rejected [None]. *)
Definition __init__ (now : str) (date category description : str)
  (amount : pyvalue) : result ValidationError t :=
  _validate_inputs date category description amount ;;;
  match amount with
  | PyFloat f =>
      Ok {| date := date; category := category;
            description := description; amount := f; created_at := now |}
  | PyNone => Raise InvalidAmount
  end.

(** [Expense.__eq__] on two expenses. *)
Definition __eq__ (self other : t) : bool :=
  PyStr.eqb self.(date) other.(date)
  && PyStr.eqb self.(category) other.(category)
  && (self.(amount) =? other.(amount))%float.

End Expense.

(** The dictionary [to_dict] builds and [from_dict] reads; one item of the
    JSON array in the data file. *)
Record ExpenseDict : Type := mkDict {
  dict_date : str;
  dict_category : str;
  dict_description : str;
  dict_amount : pyvalue;
  dict_created_at : str
}.

(** [Expense.to_dict]. *)
Definition to_dict (self : Expense.t) : ExpenseDict :=
  {| dict_date := Expense.date self;
     dict_category := Expense.category self;
     dict_description := Expense.description self;
     dict_amount := PyFloat (Expense.amount self);
     dict_created_at := Expense.created_at self |}.

(** [Expense.from_dict]: the constructor, on four of the five entries. *)
Definition from_dict (now : str) (data : ExpenseDict)
  : result ValidationError Expense.t :=
  Expense.__init__ now (dict_date data) (dict_category data)
    (dict_description data) (dict_amount data).

(* ================================================================== *)
(** * class JSONRepository *)
(* ================================================================== *)

(** What the data file holds: a JSON array of expense dictionaries, or
    anything else ([json.load] or [from_dict] raises on it).  [load] takes
    the list as [json.load] decodes it, [save] gives the list handed to
    [json.dump]; the two are the same list of dictionaries for strings without
    a high surrogate followed by a low surrogate, and [reopened] below stands
    for the decoding of a written file in general. *)
Inductive file : Type :=
| Json (data : list ExpenseDict)
| Corrupted.

(** How a write of the file ends, decided by the environment: the data is
    written, or the write raises and leaves the file as [remains]. *)
Inductive write_outcome : Type :=
| Written
| WriteFails (remains : file).

(** The repository: the file behind it, and the number of calls of [save] so
    far (kept to state whether an operation attempted a save). *)
Record JSONRepository : Type := mkRepo {
  contents : file;
  saves : nat
}.

(** The comprehension [[Expense.from_dict(item) for item in data]]; the
    [i]-th construction reads the clock as [clock i]. *)
Fixpoint from_dicts (clock : nat -> str) (i : nat) (data : list ExpenseDict)
  : result ValidationError (list Expense.t) :=
  match data with
  | [] => Ok []
  | item :: rest =>
      e <- from_dict (clock i) item ;;
      es <- from_dicts clock (S i) rest ;;
      Ok (e :: es)
  end.

(** [JSONRepository.load]: every exception becomes
    [DataPersistenceError]. *)
Definition load (clock : nat -> str) (self : JSONRepository)
  : result DataPersistenceError (list Expense.t) :=
  match contents self with
  | Corrupted => Raise PersistenceError
  | Json data =>
      match from_dicts clock 0 data with
      | Ok expenses => Ok expenses
      | Raise _ => Raise PersistenceError
      end
  end.

(** [JSONRepository.save]. *)
Definition save (w : write_outcome) (self : JSONRepository)
  (expenses : list Expense.t)
  : JSONRepository * result DataPersistenceError unit :=
  let data := List.map to_dict expenses in
  match w with
  | Written =>
      ({| contents := Json data; saves := S (saves self) |}, Ok tt)
  | WriteFails remains =>
      ({| contents := remains; saves := S (saves self) |}, Raise PersistenceError)
  end.

(* ================================================================== *)
(** * class ExpenseManager *)
(* ================================================================== *)

Record ExpenseManager : Type := mkManager {
  repository : JSONRepository;
  expenses : list Expense.t
}.

(** The message of the pair an operation returns. *)
Inductive message : Type :=
| ExpenseAdded (description : str) (amount : pyvalue)
| ValidationErrorMsg (e : ValidationError)   (* Validation Error: .. *)
| SaveErrorMsg                               (* Save Error: .. *)
| DeletedMsg (description : str)             (* Deleted: .. *)
| InvalidExpenseNumber                       (* Invalid expense number. *)
| DeleteErrorMsg.                            (* Delete Error: .. *)

(** [ExpenseManager._load_expenses]: an empty list when the load raises. *)
Definition _load_expenses (clock : nat -> str) (self : ExpenseManager)
  : ExpenseManager :=
  match load clock (repository self) with
  | Ok loaded => {| repository := repository self; expenses := loaded |}
  | Raise _ => {| repository := repository self; expenses := [] |}
  end.

(** [ExpenseManager.__init__]. *)
Definition new_manager (clock : nat -> str) (repository : JSONRepository)
  : ExpenseManager :=
  _load_expenses clock {| repository := repository; expenses := [] |}.

(** [ExpenseManager.add_expense]. *)
Definition add_expense (now : str) (w : write_outcome) (self : ExpenseManager)
  (date category description : str) (amount : pyvalue)
  : ExpenseManager * (bool * message) :=
  match Expense.__init__ now date category description amount with
  | Raise e => (self, (false, ValidationErrorMsg e))
  | Ok expense =>
      let expenses' := expenses self ++ [expense] in
      let (repository', saved) := save w (repository self) expenses' in
      let self' := {| repository := repository'; expenses := expenses' |} in
      match saved with
      | Ok _ =>
          (self', (true, ExpenseAdded (Expense.description expense) amount))
      | Raise _ => (self', (false, SaveErrorMsg))
      end
  end.

(** [list.pop(index)] for 0 <= index: the element and the list without it;
    [None] stands for [IndexError]. *)
Definition pop {A : Type} (l : list A) (index : nat) : option (A * list A) :=
  match nth_error l index with
  | Some x => Some (x, firstn index l ++ skipn (S index) l)
  | None => None
  end.

(** [ExpenseManager.delete_expense].  Inside the bounds [pop] cannot raise;
    the branch for [IndexError] is there for totality only. *)
Definition delete_expense (w : write_outcome) (self : ExpenseManager)
  (index : Z) : ExpenseManager * (bool * message) :=
  if ((0 <=? index) && (index <? Z.of_nat (List.length (expenses self))))%Z
  then
    match pop (expenses self) (Z.to_nat index) with
    | Some (deleted, expenses') =>
        let (repository', saved) := save w (repository self) expenses' in
        let self' := {| repository := repository'; expenses := expenses' |} in
        match saved with
        | Ok _ => (self', (true, DeletedMsg (Expense.description deleted)))
        | Raise _ => (self', (false, DeleteErrorMsg))
        end
    | None => (self, (false, InvalidExpenseNumber))
    end
  else (self, (false, InvalidExpenseNumber)).

(** [ExpenseManager.get_all_expenses]. *)
Definition get_all_expenses (self : ExpenseManager) : list Expense.t :=
  expenses self.

(** [sum(amounts)]: the amounts added from the left, starting from 0 (summation
    as CPython does it up to 3.11; the integer 0 of the empty sum is
    the float 0 here). *)
Definition py_sum (amounts : list float) : float :=
  fold_left PrimFloat.add amounts 0%float.

(** [ExpenseManager.get_total_spending]. *)
Definition get_total_spending (self : ExpenseManager) : float :=
  py_sum (List.map Expense.amount (expenses self)).

(** [ExpenseManager.get_average_spending]. *)
Definition get_average_spending (self : ExpenseManager) : float :=
  match expenses self with
  | [] => 0%float
  | _ =>
      (get_total_spending self / float_of_nat (List.length (expenses self)))%float
  end.

(** [ExpenseManager.filter_by_category]. *)
Definition filter_by_category (self : ExpenseManager) (category : str)
  : list Expense.t :=
  List.filter (fun exp => PyStr.eqb (Expense.category exp) category)
    (expenses self).

(** [ExpenseManager.filter_by_date_range]. *)
Definition filter_by_date_range (self : ExpenseManager)
  (start_date end_date : str) : list Expense.t :=
  List.filter
    (fun exp => PyStr.leb start_date (Expense.date exp)
                && PyStr.leb (Expense.date exp) end_date)
    (expenses self).

(* ================================================================== *)
(** * Readings of the specification *)
(* ================================================================== *)

(** The number written by ASCII digits. *)
Definition ascii_number (s : str) : Z :=
  fold_left (fun acc c => 10 * acc + (Z.of_N c - 48))%Z s 0%Z.

(** Invariant 1: exactly 8 ASCII digits, day in [1,31], month in [1,12], year
    in [1900,2100]. *)
Definition spec_date_ok (date : str) : bool :=
  (PyStr.len date =? 8)%Z
  && forallb PyStr.is_ascii_digit date
  && (let day := ascii_number (PyStr.slice date 0 2) in
      let month := ascii_number (PyStr.slice date 2 4) in
      let year := ascii_number (PyStr.slice date 4 8) in
      (1 <=? day) && (day <=? 31) && (1 <=? month) && (month <=? 12)
      && (1900 <=? year) && (year <=? 2100))%Z.

(** Invariant 2: one of the eight labels. *)
Definition spec_category_ok (category : str) : bool :=
  PyStr.mem category ExpenseCategory.

(** Invariant 3: the trimmed length is in [1,100]. *)
Definition spec_description_ok (description : str) : bool :=
  let n := PyStr.len (PyStr.strip description) in
  ((1 <=? n) && (n <=? 100))%Z.

(** Invariant 4: a number in (0, 1,000,000]. *)
Definition spec_amount_ok (amount : pyvalue) : bool :=
  match amount with
  | PyFloat f => ((0 <? f) && (f <=? 1000000))%float
  | PyNone => false
  end.

(** The four invariants on the fields of a record. *)
Definition spec_record_ok (e : Expense.t) : bool :=
  spec_date_ok (Expense.date e)
  && spec_category_ok (Expense.category e)
  && spec_description_ok (Expense.description e)
  && spec_amount_ok (PyFloat (Expense.amount e)).

(** The rejection the specification attaches to a violation of each
    invariant ([None] when the invariant holds). *)
Definition reason_date (date : str) : option ValidationError :=
  if negb ((PyStr.len date =? 8)%Z && forallb PyStr.is_ascii_digit date)
  then Some MalformedDate
  else if negb (spec_date_ok date) then Some DateOutOfRange
  else None.

Definition reason_category (category : str) : option ValidationError :=
  if negb (spec_category_ok category) then Some UnknownCategory else None.

Definition reason_description (description : str) : option ValidationError :=
  let n := PyStr.len (PyStr.strip description) in
  if (n =? 0)%Z then Some EmptyDescription
  else if (100 <? n)%Z then Some DescriptionTooLong
  else None.

Definition reason_amount (amount : pyvalue) : option ValidationError :=
  match amount with
  | PyNone => Some InvalidAmount
  | PyFloat f =>
      if negb (0 <? f)%float then Some NonPositiveAmount
      else if negb (f <=? 1000000)%float then Some AmountTooLarge
      else None
  end.

Definition option_list {A : Type} (o : option A) : list A :=
  match o with
  | Some a => [a]
  | None => []
  end.

(** The rejections of the violated invariants, in the order of the
    invariants. *)
Definition violations (date category description : str) (amount : pyvalue)
  : list ValidationError :=
  option_list (reason_date date) ++ option_list (reason_category category)
  ++ option_list (reason_description description)
  ++ option_list (reason_amount amount).

(** The eight checks of the validator, each on its own, in the order the
    specification lists them: [Some r] when the check fails. *)
Record inputs : Type := mkInputs {
  in_date : str;
  in_category : str;
  in_description : str;
  in_amount : pyvalue
}.

Definition check_date_format (x : inputs) : option ValidationError :=
  if ((PyStr.len (in_date x) =? 8)%Z && PyStr.isdigit (in_date x))
  then None else Some MalformedDate.

Definition check_date_range (x : inputs) : option ValidationError :=
  match PyStr.int (PyStr.slice (in_date x) 0 2),
        PyStr.int (PyStr.slice (in_date x) 2 4),
        PyStr.int (PyStr.slice (in_date x) 4 8) with
  | Some day, Some month, Some year =>
      if ((1 <=? day) && (day <=? 31) && (1 <=? month) && (month <=? 12)
          && (1900 <=? year) && (year <=? 2100))%Z
      then None else Some DateOutOfRange
  | _, _, _ => Some DateValidationFailed
  end.

Definition check_category (x : inputs) : option ValidationError :=
  if PyStr.mem (in_category x) ExpenseCategory then None
  else Some UnknownCategory.

Definition check_description_empty (x : inputs) : option ValidationError :=
  if (PyStr.len (PyStr.strip (in_description x)) =? 0)%Z
  then Some EmptyDescription else None.

Definition check_description_length (x : inputs) : option ValidationError :=
  if (100 <? PyStr.len (in_description x))%Z
  then Some DescriptionTooLong else None.

Definition check_amount_numeric (x : inputs) : option ValidationError :=
  match to_float (in_amount x) with
  | Some _ => None
  | None => Some InvalidAmount
  end.

Definition check_amount_positive (x : inputs) : option ValidationError :=
  match to_float (in_amount x) with
  | Some f => if (f <=? 0)%float then Some NonPositiveAmount else None
  | None => None
  end.

Definition check_amount_limit (x : inputs) : option ValidationError :=
  match to_float (in_amount x) with
  | Some f => if (1000000 <? f)%float then Some AmountTooLarge else None
  | None => None
  end.

Definition checks : list (inputs -> option ValidationError) :=
  [ check_date_format; check_date_range; check_category;
    check_description_empty; check_description_length;
    check_amount_numeric; check_amount_positive; check_amount_limit ].

(** The first check that fails, going through the list in order; [Ok] when
    none does. *)
Fixpoint first_failure (cs : list (inputs -> option ValidationError))
  (x : inputs) : result ValidationError unit :=
  match cs with
  | [] => Ok tt
  | c :: rest =>
      match c x with
      | Some r => Raise r
      | None => first_failure rest x
      end
  end.

(** [l1 == l2] on lists of expenses: the same length and [__eq__] at every
    position. *)
Fixpoint list_eq (l1 l2 : list Expense.t) : bool :=
  match l1, l2 with
  | [], [] => true
  | a :: l1', b :: l2' => Expense.__eq__ a b && list_eq l1' l2'
  | _, _ => false
  end.

(** The states of a manager a run goes through: built from a repository, then
    any sequence of [add_expense] and [delete_expense]. *)
Inductive reachable : ExpenseManager -> Prop :=
| reach_new clock repository :
    reachable (new_manager clock repository)
| reach_add now w self date category description amount :
    reachable self ->
    reachable (fst (add_expense now w self date category description amount))
| reach_delete w self index :
    reachable self ->
    reachable (fst (delete_expense w self index)).

(** A record passes the checks of the constructor. *)
Definition checked (e : Expense.t) : Prop :=
  Expense._validate_inputs (Expense.date e) (Expense.category e)
    (Expense.description e) (PyFloat (Expense.amount e)) = Ok tt.

(** The record [e] with the creation time [now]. *)
Definition restamp (now : str) (e : Expense.t) : Expense.t :=
  {| Expense.date := Expense.date e;
     Expense.category := Expense.category e;
     Expense.description := Expense.description e;
     Expense.amount := Expense.amount e;
     Expense.created_at := now |}.

(** The records of [l] with the creation times [clock i], [clock (i+1)],
    and so on. *)
Fixpoint restamp_all (clock : nat -> str) (i : nat) (l : list Expense.t)
  : list Expense.t :=
  match l with
  | [] => []
  | e :: rest => restamp (clock i) e :: restamp_all clock (S i) rest
  end.

(** Hypotheses under which the checks of the code and the invariants of the
    specification speak of the same inputs. *)

(** Every character of the date that [str.isdigit] takes for a digit is one
    of '0' .. '9'. *)
Definition digits_are_ascii (date : str) : bool :=
  forallb (fun c => implb (PyStr.isdigit_char c) (PyStr.is_ascii_digit c))
    date.

(** The amount is not NaN. *)
Definition amount_not_nan (amount : pyvalue) : bool :=
  match amount with
  | PyFloat f => negb (is_nan f)
  | PyNone => true
  end.

(** The description is not one whose trimmed length is within 100 while its
    raw length is above. *)
Definition raw_length_agrees (description : str) : bool :=
  negb ((PyStr.len (PyStr.strip description) <=? 100)%Z
        && (100 <? PyStr.len description)%Z).

Definition outcome (o : option ValidationError)
  : result ValidationError unit :=
  match o with
  | Some r => Raise r
  | None => Ok tt
  end.

(* ================================================================== *)
(** * ExpenseManager: the breakdowns by category *)
(* ================================================================== *)

(** A Python dict with string keys, as the list of its items in insertion
    order: [d.get(key)], and [d[key] = value], which replaces the value of a
    key the dict has and adds a new key at the end. *)
Fixpoint dict_get {V : Type} (d : list (str * V)) (key : str) : option V :=
  match d with
  | [] => None
  | (k, v) :: rest => if PyStr.eqb k key then Some v else dict_get rest key
  end.

Fixpoint dict_set {V : Type} (d : list (str * V)) (key : str) (value : V)
  : list (str * V) :=
  match d with
  | [] => [(key, value)]
  | (k, v) :: rest =>
      if PyStr.eqb k key then (k, value) :: rest
      else (k, v) :: dict_set rest key value
  end.

Definition dict_keys {V : Type} (d : list (str * V)) : list str :=
  List.map fst d.

(** One turn of the loop of [get_spending_by_category]: the category gets the
    entry 0 when it has none, then the amount is added to its entry.  (The
    lookup cannot fail after the entry was set; that branch is there for
    totality only.) *)
Definition add_spending (breakdown : list (str * float))
  (expense : Expense.t) : list (str * float) :=
  let breakdown :=
    match dict_get breakdown (Expense.category expense) with
    | None => dict_set breakdown (Expense.category expense) 0%float
    | Some _ => breakdown
    end in
  match dict_get breakdown (Expense.category expense) with
  | Some spent =>
      dict_set breakdown (Expense.category expense)
        (spent + Expense.amount expense)%float
  | None => breakdown
  end.

(** [ExpenseManager.get_spending_by_category]. *)
Definition get_spending_by_category (self : ExpenseManager)
  : list (str * float) :=
  fold_left add_spending (expenses self) [].

(** [min(amounts)] and [max(amounts)]: the first element, replaced by each
    later one that is smaller (greater) for [<] ([>]); [None] stands for the
    [ValueError] on an empty list. *)
Definition least_step (least item : float) : float :=
  if (item <? least)%float then item else least.

Definition most_step (most item : float) : float :=
  if (most <? item)%float then item else most.

Definition py_min (amounts : list float) : option float :=
  match amounts with
  | [] => None
  | first :: rest => Some (fold_left least_step rest first)
  end.

Definition py_max (amounts : list float) : option float :=
  match amounts with
  | [] => None
  | first :: rest => Some (fold_left most_step rest first)
  end.

(** The dictionary of one category in [get_category_statistics]. *)
Module Stats.

Record t : Type := mk {
  count : nat;
  total : float;
  average : float;
  min : float;
  max : float
}.

End Stats.

(** One turn of the loop of [get_category_statistics].  (On a list that is not
    empty [min] and [max] cannot raise; that branch is there for totality
    only.) *)
Definition add_statistics (self : ExpenseManager)
  (stats : list (str * Stats.t)) (category : str) : list (str * Stats.t) :=
  let expenses := filter_by_category self category in
  match expenses with
  | [] => stats
  | _ :: _ =>
      let amounts := List.map Expense.amount expenses in
      match py_min amounts, py_max amounts with
      | Some least, Some most =>
          dict_set stats category
            {| Stats.count := List.length expenses;
               Stats.total := py_sum amounts;
               Stats.average :=
                 (py_sum amounts / float_of_nat (List.length amounts))%float;
               Stats.min := least;
               Stats.max := most |}
      | _, _ => stats
      end
  end.

(** [ExpenseManager.get_category_statistics]. *)
Definition get_category_statistics (self : ExpenseManager)
  : list (str * Stats.t) :=
  fold_left (add_statistics self) ExpenseCategory [].

(** The statistics of a category as the loop computes them; [None] when the
    category has no record. *)
Definition statistics_of (self : ExpenseManager) (category : str)
  : option Stats.t :=
  match filter_by_category self category with
  | [] => None
  | expenses =>
      let amounts := List.map Expense.amount expenses in
      match py_min amounts, py_max amounts with
      | Some least, Some most =>
          Some {| Stats.count := List.length expenses;
                  Stats.total := py_sum amounts;
                  Stats.average :=
                    (py_sum amounts
                     / float_of_nat (List.length amounts))%float;
                  Stats.min := least;
                  Stats.max := most |}
      | _, _ => None
      end
  end.

(** The category has a record in the ledger. *)
Definition has_records (self : ExpenseManager) (category : str) : bool :=
  match filter_by_category self category with
  | [] => false
  | _ :: _ => true
  end.

(** The amounts of the records of a category, in the order of the ledger. *)
Definition amounts_of (self : ExpenseManager) (category : str) : list float :=
  List.map Expense.amount (filter_by_category self category).

(** An item of the data file passes the checks of the constructor. *)
Definition row_valid (data : ExpenseDict) : Prop :=
  Expense._validate_inputs (dict_date data) (dict_category data)
    (dict_description data) (dict_amount data) = Ok tt.

(** A record carries the date, category, description and amount of an
    item. *)
Definition same_fields (data : ExpenseDict) (e : Expense.t) : Prop :=
  dict_date data = Expense.date e
  /\ dict_category data = Expense.category e
  /\ dict_description data = Expense.description e
  /\ dict_amount data = PyFloat (Expense.amount e).

(** No amount of the list is NaN. *)
Definition no_nan (amounts : list float) : bool :=
  forallb (fun a => negb (is_nan a)) amounts.

(* ================================================================== *)
(** * Reading back what was written *)
(* ================================================================== *)

(** [json.dump] writes every character outside ASCII as an escape of four
    hexadecimal digits, a character above U+FFFF as the escapes of its two
    surrogates; [json.load] joins the escape of a high surrogate followed by
    the escape of a low one into one character.  A string is therefore read
    back as written, except that a high surrogate followed by a low surrogate
    in it comes back as the one character they encode.  Floats are written
    so that they are read back as the same float. *)
Definition is_high_surrogate (c : PyStr.char) : bool :=
  ((0xD800 <=? c) && (c <=? 0xDBFF))%N.

Definition is_low_surrogate (c : PyStr.char) : bool :=
  ((0xDC00 <=? c) && (c <=? 0xDFFF))%N.

(** [json.loads(json.dumps(s))] for a string [s]. *)
Fixpoint json_reload (s : str) : str :=
  match s with
  | [] => []
  | c :: rest =>
      match rest with
      | d :: rest' =>
          if is_high_surrogate c && is_low_surrogate d
          then (0x10000 + (c - 0xD800) * 0x400 + (d - 0xDC00))%N
               :: json_reload rest'
          else c :: json_reload rest
      | [] => [c]
      end
  end.

(** No high surrogate of the string is followed by a low surrogate. *)
Fixpoint no_surrogate_pair (s : str) : bool :=
  match s with
  | [] => true
  | c :: rest =>
      match rest with
      | d :: _ => negb (is_high_surrogate c && is_low_surrogate d)
      | [] => true
      end
      && no_surrogate_pair rest
  end.

(** A dictionary of the file as [json.load] returns it after [json.dump]
    wrote it. *)
Definition reload_dict (data : ExpenseDict) : ExpenseDict :=
  {| dict_date := json_reload (dict_date data);
     dict_category := json_reload (dict_category data);
     dict_description := json_reload (dict_description data);
     dict_amount := dict_amount data;
     dict_created_at := json_reload (dict_created_at data) |}.

(** The repository as the next run of the program finds it: the file that
    [save] wrote, decoded by [json.load]. *)
Definition reopened (self : JSONRepository) : JSONRepository :=
  {| contents :=
       match contents self with
       | Json data => Json (List.map reload_dict data)
       | Corrupted => Corrupted
       end;
     saves := saves self |}.

(* ================================================================== *)
(** * Strings: equality, order, digits *)
(* ================================================================== *)

Module PyStrFacts.
Import PyStr.

Lemma eqb_refl (s : str) : eqb s s = true.
Proof.
  induction s as [|c s IH]; simpl; [reflexivity|].
  now rewrite N.eqb_refl, IH.
Qed.

Lemma eqb_eq (s t : str) : eqb s t = true <-> s = t.
Proof.
  split.
  - revert t; induction s as [|c s IH]; intros [|d t]; simpl;
      try discriminate; [reflexivity|].
    intros H. apply andb_true_iff in H as [Hc Hs].
    apply N.eqb_eq in Hc. apply IH in Hs. now subst.
  - intros ->. apply eqb_refl.
Qed.

Lemma eqb_nil (s : str) : eqb s [] = true <-> s = [].
Proof. apply eqb_eq. Qed.

Lemma mem_In (x : str) (l : list str) : mem x l = true <-> In x l.
Proof.
  unfold mem. rewrite existsb_exists. split.
  - intros (y & Hy & E). apply eqb_eq in E. now subst.
  - intros H. exists x. split; [assumption | apply eqb_refl].
Qed.

(** [leb] is the lexicographic order. *)
Lemma leb_lex (s t : str) : leb s t = true <-> lex_le s t.
Proof.
  split.
  - revert t; induction s as [|c s IH]; intros t; [constructor|].
    destruct t as [|d t]; simpl; [discriminate|].
    destruct (c <? d)%N eqn:Hlt.
    + intros _. apply N.ltb_lt in Hlt. now apply lex_lt.
    + destruct (c =? d)%N eqn:Heq; [|discriminate].
      apply N.eqb_eq in Heq. subst d. intros H. apply lex_eq. now apply IH.
  - induction 1 as [t | c d s t Hlt | c s t _ IH]; simpl.
    + reflexivity.
    + apply N.ltb_lt in Hlt. now rewrite Hlt.
    + rewrite N.ltb_irrefl, N.eqb_refl. exact IH.
Qed.

Lemma leb_refl (s : str) : leb s s = true.
Proof.
  induction s as [|c s IH]; simpl; [reflexivity|].
  now rewrite N.ltb_irrefl, N.eqb_refl.
Qed.

(** An ASCII digit is a decimal digit, with its usual value. *)
Lemma ascii_digit_decimal (c : char) :
  is_ascii_digit c = true -> decimal_value c = Some (Z.of_N c - 48)%Z.
Proof.
  unfold is_ascii_digit. intros H.
  apply andb_true_iff in H as [H1 H2].
  apply N.leb_le in H1, H2.
  unfold decimal_value, decimal_runs, decimal_in.
  replace ((48 <=? c)%N) with true by (symmetry; now apply N.leb_le).
  replace ((c <? 48 + 10)%N) with true by (symmetry; apply N.ltb_lt; lia).
  simpl. f_equal.
  rewrite N.mod_small by lia. lia.
Qed.

Lemma ascii_digit_isdigit (c : char) :
  is_ascii_digit c = true -> isdigit_char c = true.
Proof.
  intros H. unfold isdigit_char, isdecimal_char.
  now rewrite (ascii_digit_decimal _ H).
Qed.

Lemma int_digits_ascii (s : str) (acc : Z) :
  forallb is_ascii_digit s = true ->
  int_digits acc s
  = Some (fold_left (fun a c => 10 * a + (Z.of_N c - 48))%Z s acc).
Proof.
  revert acc; induction s as [|c s IH]; intros acc H; simpl in *.
  - reflexivity.
  - apply andb_true_iff in H as [Hc Hs].
    rewrite (ascii_digit_decimal _ Hc). now apply IH.
Qed.

Lemma int_ascii (s : str) :
  s <> [] -> forallb is_ascii_digit s = true ->
  PyStr.int s = Some (ascii_number s).
Proof.
  intros Hne H. destruct s as [|c s]; [congruence|].
  unfold PyStr.int, ascii_number. now apply int_digits_ascii.
Qed.

Lemma len_nonneg (s : str) : (0 <= len s)%Z.
Proof. unfold len. lia. Qed.

(** Stripping removes characters only. *)
Lemma lstrip_length (s : str) : (List.length (lstrip s) <= List.length s)%nat.
Proof.
  induction s as [|c s IH]; simpl; [lia|].
  destruct (isspace_char c); simpl; lia.
Qed.

Lemma strip_length (s : str) : (len (strip s) <= len s)%Z.
Proof.
  unfold len, strip, rstrip.
  rewrite length_rev.
  pose proof (lstrip_length (rev (lstrip s))) as H1.
  rewrite length_rev in H1.
  pose proof (lstrip_length s). lia.
Qed.

End PyStrFacts.

(* ================================================================== *)
(** * Floats: the order against 0 and 1,000,000 *)
(* ================================================================== *)

Module FloatFacts.

Lemma SFcompare_swap (x y : spec_float) :
  SFcompare y x = option_map CompOpp (SFcompare x y).
Proof.
  destruct x as [sx | sx | | sx mx ex], y as [sy | sy | | sy my ey];
    simpl; try reflexivity;
    try (destruct sx; reflexivity); try (destruct sy; reflexivity);
    try (destruct sx, sy; reflexivity).
  destruct sx, sy; simpl; try reflexivity.
  - rewrite (Z.compare_antisym ex ey).
    destruct (ex ?= ey)%Z; simpl; try reflexivity.
    do 2 f_equal. exact (eq_sym (Pos.compare_cont_antisym mx my Eq)).
  - rewrite (Z.compare_antisym ex ey).
    destruct (ex ?= ey)%Z; simpl; try reflexivity.
    f_equal. exact (eq_sym (Pos.compare_cont_antisym mx my Eq)).
Qed.

Lemma SFcompare_None (x y : spec_float) :
  SFcompare x y = None <-> x = S754_nan \/ y = S754_nan.
Proof.
  split.
  - destruct x as [sx | sx | | sx mx ex], y as [sy | sy | | sy my ey];
      simpl; try discriminate; auto.
  - intros [-> | ->]; [reflexivity|]. now destruct x.
Qed.

Lemma SFcompare_refl (x : spec_float) :
  x <> S754_nan -> SFcompare x x = Some Eq.
Proof.
  destruct x as [s | s | | s m e]; simpl; intros H; try congruence.
  - now destruct s.
  - destruct s; rewrite Z.compare_refl, Pos.compare_cont_refl; reflexivity.
Qed.

(** [is_nan] recognises the NaN of the specification. *)
Lemma is_nan_spec (f : float) :
  is_nan f = true <-> Prim2SF f = S754_nan.
Proof.
  unfold is_nan. rewrite eqb_spec. unfold SFeqb. split.
  - intros H. destruct (Prim2SF f) eqn:E; try reflexivity;
      rewrite SFcompare_refl in H by discriminate; discriminate.
  - now intros ->.
Qed.

Lemma is_nan_false (f : float) :
  is_nan f = false <-> Prim2SF f <> S754_nan.
Proof.
  rewrite <- is_nan_spec. destruct (is_nan f); split; congruence.
Qed.

(** A strict inequality excludes the converse large one. *)
Lemma ltb_not_leb (f g : float) :
  (f <? g)%float = true -> (g <=? f)%float = false.
Proof.
  rewrite ltb_spec, leb_spec. unfold SFltb, SFleb.
  rewrite (SFcompare_swap (Prim2SF f) (Prim2SF g)).
  destruct (SFcompare (Prim2SF f) (Prim2SF g)) as [[]|]; simpl; congruence.
Qed.

Lemma leb_not_ltb (f g : float) :
  (f <=? g)%float = true -> (g <? f)%float = false.
Proof.
  rewrite ltb_spec, leb_spec. unfold SFltb, SFleb.
  rewrite (SFcompare_swap (Prim2SF f) (Prim2SF g)).
  destruct (SFcompare (Prim2SF f) (Prim2SF g)) as [[]|]; simpl; congruence.
Qed.

(** Away from NaN the order is total. *)
Lemma not_ltb_leb (f g : float) :
  is_nan f = false -> is_nan g = false ->
  (f <? g)%float = false -> (g <=? f)%float = true.
Proof.
  intros Hf Hg. apply is_nan_false in Hf, Hg.
  rewrite ltb_spec, leb_spec. unfold SFltb, SFleb.
  rewrite (SFcompare_swap (Prim2SF f) (Prim2SF g)).
  destruct (SFcompare (Prim2SF f) (Prim2SF g)) as [[]|] eqn:E; simpl;
    try congruence.
  apply SFcompare_None in E. tauto.
Qed.

Lemma not_leb_ltb (f g : float) :
  is_nan f = false -> is_nan g = false ->
  (f <=? g)%float = false -> (g <? f)%float = true.
Proof.
  intros Hf Hg. apply is_nan_false in Hf, Hg.
  rewrite ltb_spec, leb_spec. unfold SFltb, SFleb.
  rewrite (SFcompare_swap (Prim2SF f) (Prim2SF g)).
  destruct (SFcompare (Prim2SF f) (Prim2SF g)) as [[]|] eqn:E; simpl;
    try congruence.
  apply SFcompare_None in E. tauto.
Qed.

(** A comparison with NaN is false. *)
Lemma ltb_nan_r (f g : float) : is_nan g = true -> (f <? g)%float = false.
Proof.
  intros H. apply is_nan_spec in H. rewrite ltb_spec, H.
  unfold SFltb. now destruct (Prim2SF f).
Qed.

Lemma is_nan_0 : is_nan 0 = false.
Proof. reflexivity. Qed.

Lemma is_nan_1000000 : is_nan 1000000 = false.
Proof. reflexivity. Qed.

(** A float equal to itself ([f == f]) compares equal to every float it is
    identical with. *)
Lemma float_eqb_refl (f : float) :
  is_nan f = false -> (f =? f)%float = true.
Proof. unfold is_nan. now destruct (f =? f)%float. Qed.

End FloatFacts.

(* ================================================================== *)
(** * The validator *)
(* ================================================================== *)

Section Validator.
Import PyStr PyStrFacts FloatFacts.

Lemma length_8 (s : str) :
  (len s =? 8)%Z = true ->
  exists c1 c2 c3 c4 c5 c6 c7 c8, s = [c1; c2; c3; c4; c5; c6; c7; c8].
Proof.
  unfold len. intros H. apply Z.eqb_eq in H.
  do 8 (destruct s as [|? s]; [simpl in H; lia|]).
  destruct s; [|simpl in H; lia].
  repeat eexists.
Qed.

Lemma isdigit_ascii (s : str) :
  digits_are_ascii s = true ->
  forallb isdigit_char s = forallb is_ascii_digit s.
Proof.
  unfold digits_are_ascii.
  induction s as [|c s IH]; simpl; [reflexivity|].
  intros H. apply andb_true_iff in H as [Hc Hs].
  rewrite (IH Hs). f_equal.
  destruct (isdigit_char c) eqn:E; simpl in Hc.
  - now rewrite Hc.
  - destruct (is_ascii_digit c) eqn:E'; [|reflexivity].
    now rewrite (ascii_digit_isdigit _ E') in E.
Qed.

Lemma ascii_digits_are_ascii (s : str) :
  forallb is_ascii_digit s = true -> digits_are_ascii s = true.
Proof.
  unfold digits_are_ascii. induction s as [|c s IH]; simpl; [reflexivity|].
  intros H. apply andb_true_iff in H as [Hc Hs].
  rewrite Hc, (IH Hs). now destruct (isdigit_char c).
Qed.

(** The date checks against invariant 1. *)
Lemma validate_date_reason (date : str) :
  digits_are_ascii date = true ->
  Expense.validate_date date = outcome (reason_date date).
Proof.
  intros Hd. unfold Expense.validate_date, reason_date.
  destruct (len date =? 8)%Z eqn:Hlen; simpl.
  2:{ now rewrite orb_true_r. }
  destruct (length_8 _ Hlen) as (c1 & c2 & c3 & c4 & c5 & c6 & c7 & c8 & ->).
  unfold isdigit. rewrite (isdigit_ascii _ Hd).
  cbn [eqb orb negb].
  destruct (forallb is_ascii_digit [c1; c2; c3; c4; c5; c6; c7; c8])
    eqn:Hall; cbn [negb]; [|reflexivity].
  unfold spec_date_ok. rewrite Hlen, Hall. cbn [andb].
  assert (H2 : forallb is_ascii_digit [c1; c2] = true
               /\ forallb is_ascii_digit [c3; c4] = true
               /\ forallb is_ascii_digit [c5; c6; c7; c8] = true).
  { cbn [forallb] in Hall |- *.
    repeat rewrite andb_true_iff in Hall.
    destruct Hall as (h1 & h2 & h3 & h4 & h5 & h6 & h7 & h8 & _).
    now rewrite h1, h2, h3, h4, h5, h6, h7, h8. }
  destruct H2 as (Ha & Hb & Hc).
  cbn [slice skipn firstn Nat.sub].
  rewrite (int_ascii [c1; c2]), (int_ascii [c3; c4]),
    (int_ascii [c5; c6; c7; c8]) by (assumption || discriminate).
  match goal with
  | |- (if negb ?b then _ else _) = _ => now destruct b
  end.
Qed.

Lemma validate_category_reason (category : str) :
  Expense.validate_category category = outcome (reason_category category).
Proof.
  unfold Expense.validate_category, reason_category, spec_category_ok.
  now destruct (mem category ExpenseCategory).
Qed.

Lemma strip_nil_len (s : str) :
  (len (strip s) =? 0)%Z = false -> eqb s [] = false.
Proof. destruct s; [discriminate | reflexivity]. Qed.

Lemma validate_description_reason (description : str) :
  raw_length_agrees description = true ->
  Expense.validate_description description
  = outcome (reason_description description).
Proof.
  unfold raw_length_agrees, Expense.validate_description,
    reason_description.
  intros H. cbv zeta.
  destruct (len (strip description) =? 0)%Z eqn:E0.
  { now rewrite orb_true_r. }
  rewrite (strip_nil_len _ E0). cbn [orb].
  pose proof (strip_length description) as Hle.
  destruct (100 <? len (strip description))%Z eqn:E1.
  - apply Z.ltb_lt in E1.
    replace (100 <? len description)%Z with true
      by (symmetry; apply Z.ltb_lt; lia).
    reflexivity.
  - apply Z.ltb_ge in E1.
    replace (len (strip description) <=? 100)%Z with true in H
      by (symmetry; apply Z.leb_le; lia).
    cbn [andb] in H. apply negb_true_iff in H. now rewrite H.
Qed.

Lemma validate_amount_reason (amount : pyvalue) :
  amount_not_nan amount = true ->
  Expense.validate_amount amount = outcome (reason_amount amount).
Proof.
  destruct amount as [f|]; [|reflexivity].
  cbn. intros Hn. apply negb_true_iff in Hn.
  destruct (0 <? f)%float eqn:E0; cbn [negb].
  - rewrite (ltb_not_leb _ _ E0).
    destruct (f <=? 1000000)%float eqn:E1; cbn [negb].
    + now rewrite (leb_not_ltb _ _ E1).
    + now rewrite (not_leb_ltb _ _ Hn is_nan_1000000 E1).
  - now rewrite (not_ltb_leb _ _ is_nan_0 Hn E0).
Qed.

(** Under the three hypotheses the validator rejects with the reason of the
    first violated invariant, and accepts when none is violated. *)
Lemma validate_first_violation (date category description : str)
  (amount : pyvalue) :
  digits_are_ascii date = true ->
  amount_not_nan amount = true ->
  raw_length_agrees description = true ->
  Expense._validate_inputs date category description amount
  = match violations date category description amount with
    | [] => Ok tt
    | r :: _ => Raise r
    end.
Proof.
  intros Hd Ha Hs. unfold Expense._validate_inputs, violations.
  rewrite (validate_date_reason _ Hd), validate_category_reason,
    (validate_description_reason _ Hs), (validate_amount_reason _ Ha).
  destruct (reason_date date), (reason_category category),
    (reason_description description), (reason_amount amount); reflexivity.
Qed.

(** The validator is the first failing check of the list [checks]. *)
Lemma validate_inputs_checks (date category description : str)
  (amount : pyvalue) :
  Expense._validate_inputs date category description amount
  = first_failure checks (mkInputs date category description amount).
Proof.
  unfold Expense._validate_inputs, checks, first_failure.
  unfold check_date_format, check_date_range, check_category,
    check_description_empty, check_description_length,
    check_amount_numeric, check_amount_positive, check_amount_limit.
  cbn [in_date in_category in_description in_amount].
  unfold Expense.validate_date.
  assert (Hnil : eqb date [] || negb (len date =? 8)%Z
                 = negb (len date =? 8)%Z).
  { destruct date; reflexivity. }
  rewrite Hnil. rewrite <- negb_andb.
  destruct ((len date =? 8)%Z && isdigit date); cbn [negb bind];
    [|reflexivity].
  destruct (PyStr.int (slice date 0 2)) as [day|]; [|reflexivity].
  destruct (PyStr.int (slice date 2 4)) as [month|]; [|reflexivity].
  destruct (PyStr.int (slice date 4 8)) as [year|]; [|reflexivity].
  match goal with
  | |- bind (if negb ?b then _ else _) _ = _ => destruct b
  end; cbn [negb bind]; [|reflexivity].
  unfold Expense.validate_category.
  destruct (mem category ExpenseCategory); cbn [negb bind]; [|reflexivity].
  unfold Expense.validate_description.
  assert (Hnil' : eqb description [] || (len (strip description) =? 0)%Z
                  = (len (strip description) =? 0)%Z).
  { destruct description; reflexivity. }
  rewrite Hnil'.
  destruct (len (strip description) =? 0)%Z; cbn [bind]; [reflexivity|].
  destruct (100 <? len description)%Z; cbn [bind]; [reflexivity|].
  unfold Expense.validate_amount.
  destruct (to_float amount) as [f|]; [|reflexivity].
  destruct (f <=? 0)%float; [reflexivity|].
  destruct (1000000 <? f)%float; reflexivity.
Qed.

(** An accepted amount is a float. *)
Lemma validate_amount_float (amount : pyvalue) :
  Expense.validate_amount amount = Ok tt -> exists f, amount = PyFloat f.
Proof. destruct amount as [f|]; [eauto | discriminate]. Qed.

Lemma validate_inputs_float (date category description : str)
  (amount : pyvalue) :
  Expense._validate_inputs date category description amount = Ok tt ->
  exists f, amount = PyFloat f.
Proof.
  unfold Expense._validate_inputs.
  destruct (Expense.validate_date date); [|discriminate].
  destruct (Expense.validate_category category); [|discriminate].
  destruct (Expense.validate_description description); [|discriminate].
  apply validate_amount_float.
Qed.

(** The constructor succeeds exactly when the validator does, and keeps the
    four inputs. *)
Lemma init_ok (now date category description : str) (f : float) :
  Expense._validate_inputs date category description (PyFloat f) = Ok tt ->
  Expense.__init__ now date category description (PyFloat f)
  = Ok (Expense.mk date category description f now).
Proof. unfold Expense.__init__. now intros ->. Qed.

Lemma init_inv (now date category description : str) (amount : pyvalue)
  (e : Expense.t) :
  Expense.__init__ now date category description amount = Ok e ->
  exists f, amount = PyFloat f
            /\ e = Expense.mk date category description f now
            /\ Expense._validate_inputs date category description
                 (PyFloat f) = Ok tt.
Proof.
  unfold Expense.__init__.
  destruct (Expense._validate_inputs date category description amount)
    as [[]|] eqn:E; [|discriminate].
  destruct amount as [f|]; [|discriminate].
  cbn. intros [= <-]. eauto.
Qed.

Lemma init_checked (now date category description : str)
  (amount : pyvalue) (e : Expense.t) :
  Expense.__init__ now date category description amount = Ok e ->
  checked e.
Proof.
  intros H. apply init_inv in H as (f & -> & -> & H). exact H.
Qed.

End Validator.

(* ================================================================== *)
(** * The ledger *)
(* ================================================================== *)

Section Ledger.
Import PyStr PyStrFacts FloatFacts.

Lemma pop_in_range {A : Type} (l : list A) (index : nat) :
  (index < List.length l)%nat ->
  exists x, nth_error l index = Some x
            /\ pop l index = Some (x, firstn index l ++ skipn (S index) l).
Proof.
  intros H. unfold pop.
  destruct (nth_error l index) as [x|] eqn:E.
  - eauto.
  - apply nth_error_None in E. lia.
Qed.

Lemma pop_last {A : Type} (l : list A) (x : A) :
  pop (l ++ [x]) (List.length l) = Some (x, l).
Proof.
  unfold pop.
  rewrite nth_error_app2, Nat.sub_diag by lia. cbn [nth_error].
  rewrite firstn_app, Nat.sub_diag, firstn_all. cbn [firstn].
  rewrite skipn_all2 by (rewrite length_app; simpl; lia).
  now rewrite !app_nil_r.
Qed.

Lemma validate_inputs_inv (date category description : str)
  (amount : pyvalue) :
  Expense._validate_inputs date category description amount = Ok tt ->
  Expense.validate_date date = Ok tt
  /\ Expense.validate_category category = Ok tt
  /\ Expense.validate_description description = Ok tt
  /\ Expense.validate_amount amount = Ok tt.
Proof.
  unfold Expense._validate_inputs.
  destruct (Expense.validate_date date) as [[]|]; [|discriminate].
  destruct (Expense.validate_category category) as [[]|]; [|discriminate].
  destruct (Expense.validate_description description) as [[]|];
    [|discriminate].
  cbn. auto.
Qed.

(** An accepted description has at most 100 characters, untrimmed. *)
Lemma validate_description_raw (description : str) :
  Expense.validate_description description = Ok tt ->
  (len description <= 100)%Z /\ raw_length_agrees description = true.
Proof.
  unfold Expense.validate_description, raw_length_agrees.
  destruct (eqb description [] || (len (strip description) =? 0)%Z);
    [discriminate|].
  destruct (100 <? len description)%Z eqn:E; [discriminate|].
  intros _. apply Z.ltb_ge in E. split; [exact E|].
  now rewrite andb_false_r.
Qed.

(** What the checks give in the words of the specification: a checked
    record whose date has only ASCII digits and whose amount is not NaN
    satisfies the four invariants. *)
Lemma checked_spec (e : Expense.t) :
  checked e ->
  digits_are_ascii (Expense.date e) = true ->
  is_nan (Expense.amount e) = false ->
  spec_record_ok e = true.
Proof.
  unfold checked. intros Hc Hd Hn.
  pose proof (validate_inputs_inv _ _ _ _ Hc) as (_ & _ & Hs & _).
  apply validate_description_raw in Hs as [_ Hs].
  rewrite (validate_first_violation _ _ _ _ Hd) in Hc;
    [| cbn; now rewrite Hn | exact Hs].
  unfold violations in Hc. unfold spec_record_ok.
  destruct (reason_date (Expense.date e)) eqn:E1; [discriminate|].
  destruct (reason_category (Expense.category e)) eqn:E2; [discriminate|].
  destruct (reason_description (Expense.description e)) eqn:E3;
    [discriminate|].
  destruct (reason_amount (PyFloat (Expense.amount e))) eqn:E4;
    [discriminate|].
  clear Hc.
  unfold reason_date in E1.
  destruct (negb _) in E1; [discriminate|].
  destruct (spec_date_ok (Expense.date e)); [|discriminate].
  unfold reason_category in E2.
  destruct (spec_category_ok (Expense.category e)); [|discriminate].
  unfold reason_description in E3. unfold spec_description_ok.
  cbv zeta in E3 |- *.
  pose proof (len_nonneg (strip (Expense.description e))) as Hpos.
  destruct (len (strip (Expense.description e)) =? 0)%Z eqn:F0;
    [discriminate|].
  destruct (100 <? len (strip (Expense.description e)))%Z eqn:F1;
    [discriminate|].
  apply Z.eqb_neq in F0. apply Z.ltb_ge in F1.
  replace (1 <=? len (strip (Expense.description e)))%Z with true
    by (symmetry; apply Z.leb_le; lia).
  replace (len (strip (Expense.description e)) <=? 100)%Z with true
    by (symmetry; apply Z.leb_le; lia).
  cbn in E4 |- *.
  destruct (0 <? Expense.amount e)%float; [|discriminate].
  destruct (Expense.amount e <=? 1000000)%float; [|discriminate].
  reflexivity.
Qed.

(** Loading builds checked records only. *)
Lemma from_dicts_checked (clock : nat -> str) (data : list ExpenseDict) :
  forall i l, from_dicts clock i data = Ok l -> Forall checked l.
Proof.
  induction data as [|item rest IH]; intros i l; cbn [from_dicts].
  - intros [= <-]. constructor.
  - destruct (from_dict (clock i) item) as [e|] eqn:E; [|discriminate].
    cbn [bind].
    destruct (from_dicts clock (S i) rest) as [es|] eqn:Es; [|discriminate].
    cbn [bind]. intros [= <-]. constructor.
    + unfold from_dict in E. eapply init_checked; eassumption.
    + eapply IH; eassumption.
Qed.

(** Loading what [to_dict] wrote for checked records succeeds, and gives
    the same records with the creation times of the load. *)
Lemma from_dicts_to_dict (clock : nat -> str) (l : list Expense.t) :
  Forall checked l ->
  forall i, from_dicts clock i (List.map to_dict l)
            = Ok (restamp_all clock i l).
Proof.
  induction 1 as [|e l He _ IH]; intros i; cbn [List.map from_dicts].
  - reflexivity.
  - unfold from_dict at 1. cbn [to_dict dict_date dict_category
      dict_description dict_amount].
    rewrite (init_ok _ _ _ _ _ He). cbn [bind].
    rewrite IH. reflexivity.
Qed.

Lemma load_after_save (clock : nat -> str) (self : JSONRepository)
  (l : list Expense.t) :
  Forall checked l ->
  load clock (fst (save Written self l)) = Ok (restamp_all clock 0 l).
Proof.
  intros H. unfold load, save. cbn [fst contents].
  now rewrite (from_dicts_to_dict clock l H 0).
Qed.

Lemma new_manager_checked (clock : nat -> str) (r : JSONRepository) :
  Forall checked (expenses (new_manager clock r)).
Proof.
  unfold new_manager, _load_expenses, load. cbn [repository].
  destruct (contents r) as [data|]; [|constructor].
  destruct (from_dicts clock 0 data) as [l|] eqn:E; [|constructor].
  cbn. eapply from_dicts_checked; eassumption.
Qed.

Lemma add_expense_checked now w self date category description amount :
  Forall checked (expenses self) ->
  Forall checked
    (expenses
       (fst (add_expense now w self date category description amount))).
Proof.
  intros H. unfold add_expense.
  destruct (Expense.__init__ now date category description amount)
    as [e|] eqn:E; [|exact H].
  destruct w; cbn; apply Forall_app; split; try assumption;
    constructor; try constructor; eapply init_checked; eassumption.
Qed.

Lemma delete_expense_checked w self index :
  Forall checked (expenses self) ->
  Forall checked (expenses (fst (delete_expense w self index))).
Proof.
  intros H. unfold delete_expense.
  destruct ((0 <=? index)%Z && _); [|exact H].
  unfold pop.
  destruct (nth_error (expenses self) (Z.to_nat index)); [|exact H].
  assert (H' : Forall checked
                 (firstn (Z.to_nat index) (expenses self)
                  ++ skipn (S (Z.to_nat index)) (expenses self))).
  { apply Forall_app. split.
    - rewrite <- (firstn_skipn (Z.to_nat index) (expenses self)) in H.
      now apply Forall_app in H.
    - rewrite <- (firstn_skipn (S (Z.to_nat index)) (expenses self)) in H.
      now apply Forall_app in H. }
  destruct w; cbn; exact H'.
Qed.

(** Every record of a reachable ledger passed the checks of the
    constructor. *)
Lemma reachable_checked (self : ExpenseManager) :
  reachable self -> Forall checked (expenses self).
Proof.
  induction 1.
  - apply new_manager_checked.
  - now apply add_expense_checked.
  - now apply delete_expense_checked.
Qed.

(** The invariants of the specification hold for the records of a
    reachable ledger whose date has only ASCII digits and whose amount is
    not NaN. *)
Lemma reachable_spec (self : ExpenseManager) (e : Expense.t) :
  reachable self -> In e (expenses self) ->
  digits_are_ascii (Expense.date e) = true ->
  is_nan (Expense.amount e) = false ->
  spec_record_ok e = true.
Proof.
  intros Hr Hin. apply checked_spec.
  pose proof (reachable_checked self Hr) as H.
  rewrite Forall_forall in H. now apply H.
Qed.

End Ledger.

(* ================================================================== *)
(** * The claims *)
(* ================================================================== *)

Section Claims.
Import PyStr PyStrFacts FloatFacts.

(** ** C1 *)

(** C1. When validation succeeds and the save that follows the append
    raises, [add_expense] leaves the new record at the end of the list in
    memory and returns the failure of the save ([False], "Save Error");
    when the index is within bounds and the save that follows the removal
    raises, [delete_expense] leaves the record removed and returns the
    failure ([False], "Delete Error").  Nothing is rolled back. *)
Theorem save_failure_is_not_rolled_back :
  (forall now remains self date category description amount,
      Expense._validate_inputs date category description amount = Ok tt ->
      exists f,
        amount = PyFloat f
        /\ add_expense now (WriteFails remains) self date category
             description amount
           = ({| repository :=
                   {| contents := remains;
                      saves := S (saves (repository self)) |};
                 expenses :=
                   expenses self
                   ++ [Expense.mk date category description f now] |},
              (false, SaveErrorMsg)))
  /\
  (forall remains self index,
      (0 <= index < Z.of_nat (List.length (expenses self)))%Z ->
      exists deleted,
        nth_error (expenses self) (Z.to_nat index) = Some deleted
        /\ delete_expense (WriteFails remains) self index
           = ({| repository :=
                   {| contents := remains;
                      saves := S (saves (repository self)) |};
                 expenses :=
                   firstn (Z.to_nat index) (expenses self)
                   ++ skipn (S (Z.to_nat index)) (expenses self) |},
              (false, DeleteErrorMsg))).
Proof.
  split.
  - intros now remains self date category description amount Hv.
    destruct (validate_inputs_float _ _ _ _ Hv) as [f ->].
    exists f. split; [reflexivity|].
    unfold add_expense. now rewrite (init_ok now _ _ _ _ Hv).
  - intros remains self index [Hlo Hhi].
    destruct (pop_in_range (expenses self) (Z.to_nat index))
      as (deleted & Hnth & Hpop); [lia|].
    exists deleted. split; [exact Hnth|].
    unfold delete_expense.
    replace (0 <=? index)%Z with true by (symmetry; now apply Z.leb_le).
    replace (index <? Z.of_nat (List.length (expenses self)))%Z with true
      by (symmetry; now apply Z.ltb_lt).
    cbn [andb]. now rewrite Hpop.
Qed.

Lemma save_failure_is_not_rolled_back_witness :
  (exists f,
      PyFloat 10.5 = PyFloat f
      /\ add_expense (lit "t1") (WriteFails Corrupted)
           (mkManager (mkRepo (Json []) 0) [])
           (lit "01012024") (lit "Food") (lit "lunch") (PyFloat 10.5)
         = ({| repository := {| contents := Corrupted; saves := 1 |};
               expenses :=
                 [] ++ [Expense.mk (lit "01012024") (lit "Food")
                          (lit "lunch") f (lit "t1")] |},
            (false, SaveErrorMsg)))
  /\
  (exists deleted,
      nth_error
        [Expense.mk (lit "01012024") (lit "Food") (lit "lunch") 10.5
           (lit "t1")] (Z.to_nat 0) = Some deleted
      /\ delete_expense (WriteFails Corrupted)
           (mkManager (mkRepo (Json []) 0)
              [Expense.mk (lit "01012024") (lit "Food") (lit "lunch") 10.5
                 (lit "t1")]) 0
         = ({| repository := {| contents := Corrupted; saves := 1 |};
               expenses := [] |},
            (false, DeleteErrorMsg))).
Proof.
  split.
  - apply (proj1 save_failure_is_not_rolled_back (lit "t1") Corrupted
             (mkManager (mkRepo (Json []) 0) [])).
    reflexivity.
  - apply (proj2 save_failure_is_not_rolled_back Corrupted
             (mkManager (mkRepo (Json []) 0)
                [Expense.mk (lit "01012024") (lit "Food") (lit "lunch")
                   10.5 (lit "t1")]) 0%Z).
    simpl. lia.
Defined.

(** ** C2 *)

(** The claim as stated fails: a record dated "01022024" lies, as a string,
    between "01012024" and "31012024", and the filter returns it. *)
Lemma date_range_returns_01022024 :
  ~ (forall self exp,
        In exp (expenses self) ->
        Expense.date exp = lit "01022024" ->
        ~ In exp (filter_by_date_range self (lit "01012024")
                    (lit "31012024"))).
Proof.
  intros H.
  set (e := Expense.mk (lit "01022024") (lit "Food") (lit "lunch") 10.5
              (lit "t1")).
  apply (H (mkManager (mkRepo (Json [to_dict e]) 1) [e]) e).
  - now left.
  - reflexivity.
  - now left.
Qed.

(** C2 (amended). [filter_by_date_range] returns exactly the records whose
    date lies between the two bounds, both included, in the lexicographic
    order of strings; with the bounds "01012024" and "31012024" it returns
    every record dated "15012024" and every record dated "01022024", and
    no record dated "31122023". *)
Theorem filter_by_date_range_lexicographic :
  (forall self start_date end_date exp,
      In exp (filter_by_date_range self start_date end_date)
      <-> In exp (expenses self)
          /\ lex_le start_date (Expense.date exp)
          /\ lex_le (Expense.date exp) end_date)
  /\
  (forall self exp,
      In exp (expenses self) ->
      Expense.date exp = lit "15012024"
      \/ Expense.date exp = lit "01022024" ->
      In exp (filter_by_date_range self (lit "01012024") (lit "31012024")))
  /\
  (forall self exp,
      Expense.date exp = lit "31122023" ->
      ~ In exp (filter_by_date_range self (lit "01012024")
                  (lit "31012024"))).
Proof.
  assert (Hiff : forall self start_date end_date exp,
             In exp (filter_by_date_range self start_date end_date)
             <-> In exp (expenses self)
                 /\ leb start_date (Expense.date exp) = true
                 /\ leb (Expense.date exp) end_date = true).
  { intros. unfold filter_by_date_range.
    rewrite filter_In, andb_true_iff. reflexivity. }
  split; [|split].
  - intros. rewrite Hiff, !leb_lex. reflexivity.
  - intros self exp Hin Hd. apply Hiff. split; [exact Hin|].
    destruct Hd as [-> | ->]; split; reflexivity.
  - intros self exp Hd Hin. apply Hiff in Hin as (_ & _ & H).
    rewrite Hd in H. discriminate H.
Qed.

Lemma filter_by_date_range_lexicographic_witness :
  In (Expense.mk (lit "01022024") (lit "Food") (lit "lunch") 10.5
        (lit "t1"))
    (filter_by_date_range
       (mkManager (mkRepo (Json []) 0)
          [Expense.mk (lit "01022024") (lit "Food") (lit "lunch") 10.5
             (lit "t1")])
       (lit "01012024") (lit "31012024"))
  /\ ~ In (Expense.mk (lit "31122023") (lit "Food") (lit "lunch") 10.5
             (lit "t1"))
         (filter_by_date_range
            (mkManager (mkRepo (Json []) 0)
               [Expense.mk (lit "31122023") (lit "Food") (lit "lunch") 10.5
                  (lit "t1")])
            (lit "01012024") (lit "31012024")).
Proof.
  split.
  - apply (proj1 (proj2 filter_by_date_range_lexicographic)).
    + simpl. left. reflexivity.
    + right. reflexivity.
  - apply (proj2 (proj2 filter_by_date_range_lexicographic)).
    reflexivity.
Defined.

(** ** C3 *)

(** The claim as stated fails: on a ledger that already holds a record,
    [add_expense] appends at the end and [delete_expense 0] removes the
    oldest record, so the ledger ends with the new record alone. *)
Lemma add_then_delete_0_changes_ledger :
  let empty := new_manager (fun _ => lit "t0") (mkRepo (Json []) 0) in
  let self :=
    fst (add_expense (lit "t1") Written empty (lit "01012024") (lit "Food")
           (lit "lunch") (PyFloat 10.5)) in
  let added :=
    add_expense (lit "t2") Written self (lit "02012024") (lit "Travel")
      (lit "bus") (PyFloat 2) in
  let deleted := delete_expense Written (fst added) 0 in
  fst (snd added) = true
  /\ fst (snd deleted) = true
  /\ expenses self
     = [Expense.mk (lit "01012024") (lit "Food") (lit "lunch") 10.5
          (lit "t1")]
  /\ expenses (fst deleted)
     = [Expense.mk (lit "02012024") (lit "Travel") (lit "bus") 2
          (lit "t2")]
  /\ list_eq (expenses (fst deleted)) (expenses self) = false.
Proof. cbv zeta. repeat split. Qed.

(** C3 (amended). On every ledger, [add_expense] with valid inputs followed
    by [delete_expense n], where [n] is the number of records before the
    addition (so [delete_expense 0] on the empty ledger), both saves
    succeeding, gives back the sequence of records there was before the
    addition, and the file holds that sequence. *)
Theorem add_then_delete_last_restores :
  forall now self date category description amount,
    Expense._validate_inputs date category description amount = Ok tt ->
    let added :=
      add_expense now Written self date category description amount in
    let deleted :=
      delete_expense Written (fst added)
        (Z.of_nat (List.length (expenses self))) in
    fst (snd added) = true
    /\ fst (snd deleted) = true
    /\ expenses (fst deleted) = expenses self
    /\ contents (repository (fst deleted))
       = Json (List.map to_dict (expenses self)).
Proof.
  intros now self date category description amount Hv.
  destruct (validate_inputs_float _ _ _ _ Hv) as [f ->].
  cbv zeta. unfold add_expense.
  rewrite (init_ok now _ _ _ _ Hv). cbn [save fst snd].
  unfold delete_expense. cbn [expenses repository].
  replace (0 <=? Z.of_nat (List.length (expenses self)))%Z with true
    by (symmetry; apply Z.leb_le; lia).
  replace (Z.of_nat (List.length (expenses self))
           <? Z.of_nat (List.length (expenses self ++ [Expense.mk date
                category description f now])))%Z with true
    by (symmetry; apply Z.ltb_lt; rewrite length_app; simpl; lia).
  cbn [andb]. rewrite Nat2Z.id, pop_last. cbn.
  repeat split.
Qed.

Lemma add_then_delete_last_restores_witness :
  let self := mkManager (mkRepo (Json []) 0) [] in
  let added :=
    add_expense (lit "t1") Written self (lit "01012024") (lit "Food")
      (lit "lunch") (PyFloat 10.5) in
  let deleted :=
    delete_expense Written (fst added)
      (Z.of_nat (List.length (expenses self))) in
  fst (snd added) = true
  /\ fst (snd deleted) = true
  /\ expenses (fst deleted) = expenses self
  /\ contents (repository (fst deleted))
     = Json (List.map to_dict (expenses self)).
Proof.
  apply (add_then_delete_last_restores (lit "t1")
           (mkManager (mkRepo (Json []) 0) []) (lit "01012024")
           (lit "Food") (lit "lunch") (PyFloat 10.5)).
  reflexivity.
Defined.


(** ** C4 *)

(** C4 (the code at a failing input). A ledger of one valid record created at
    "2024-01-01T10:00:00" is saved, and loaded when the clock reads
    "2024-06-01T09:00:00": the load succeeds and gives the record with the
    same date, category, description and amount, but with the time of the
    load as [created_at]; the record loaded is not the record saved. *)
Theorem load_after_save_restamps_created_at :
  let e :=
    Expense.mk (lit "01012024") (lit "Food") (lit "lunch") 10.5
      (lit "2024-01-01T10:00:00") in
  let clock := fun _ : nat => lit "2024-06-01T09:00:00" in
  let repo := fst (save Written (mkRepo (Json []) 0) [e]) in
  checked e
  /\ contents repo
     = Json [mkDict (lit "01012024") (lit "Food") (lit "lunch")
               (PyFloat 10.5) (lit "2024-01-01T10:00:00")]
  /\ load clock repo
     = Ok [Expense.mk (lit "01012024") (lit "Food") (lit "lunch") 10.5
             (lit "2024-06-01T09:00:00")]
  /\ load clock repo <> Ok [e].
Proof.
  cbv zeta. repeat split. intros H. vm_compute in H. discriminate H.
Qed.

(** ** C5 *)

(** The claim as stated fails: a description of one letter followed by 100
    spaces has trimmed length 1, so the four inputs satisfy the invariants,
    and the validator rejects them, the raw length being 101. *)
Lemma valid_inputs_rejected_for_raw_length :
  let description := lit "a" ++ repeat 32%N 100 in
  spec_date_ok (lit "01012024") = true
  /\ spec_category_ok (lit "Food") = true
  /\ spec_description_ok description = true
  /\ spec_amount_ok (PyFloat 10.5) = true
  /\ Expense.__init__ (lit "t1") (lit "01012024") (lit "Food") description
       (PyFloat 10.5)
     = Raise DescriptionTooLong.
Proof. cbv zeta. repeat split. Qed.

(** C5 (amended). For all inputs that satisfy the four invariants and whose
    description has at most 100 characters before trimming, the validator
    accepts and the constructor gives the record whose date, category,
    description and amount are the inputs, the description as given (not
    trimmed), with the time of the call as [created_at]. *)
Theorem valid_inputs_are_accepted :
  forall now date category description f,
    spec_date_ok date = true ->
    spec_category_ok category = true ->
    spec_description_ok description = true ->
    (len description <= 100)%Z ->
    spec_amount_ok (PyFloat f) = true ->
    Expense._validate_inputs date category description (PyFloat f) = Ok tt
    /\ Expense.__init__ now date category description (PyFloat f)
       = Ok (Expense.mk date category description f now).
Proof.
  intros now date category description f Hd Hc Hs Hraw Ha.
  assert (Hv : Expense._validate_inputs date category description (PyFloat f)
               = Ok tt).
  { assert (Hall : forallb is_ascii_digit date = true).
    { unfold spec_date_ok in Hd.
      apply andb_true_iff in Hd as [Hd _].
      now apply andb_true_iff in Hd as [_ Hd]. }
    cbn in Ha. apply andb_true_iff in Ha as [Ha0 Ha1].
    assert (Hn : is_nan f = false).
    { destruct (is_nan f) eqn:E; [|reflexivity].
      now rewrite (ltb_nan_r 0 f E) in Ha0. }
    rewrite validate_first_violation.
    - unfold violations, reason_date, reason_category, reason_description,
        reason_amount.
      pose proof Hd as Hd'. unfold spec_date_ok in Hd'.
      apply andb_true_iff in Hd' as [Hd' _]. rewrite Hd', Hd, Hc.
      unfold spec_description_ok in Hs. cbv zeta in Hs |- *.
      apply andb_true_iff in Hs as [Hs1 Hs2].
      apply Z.leb_le in Hs1, Hs2.
      replace (len (strip description) =? 0)%Z with false
        by (symmetry; apply Z.eqb_neq; lia).
      replace (100 <? len (strip description))%Z with false
        by (symmetry; apply Z.ltb_ge; lia).
      now rewrite Ha0, Ha1.
    - now apply ascii_digits_are_ascii.
    - cbn. now rewrite Hn.
    - unfold raw_length_agrees.
      replace (100 <? len description)%Z with false
        by (symmetry; apply Z.ltb_ge; lia).
      now rewrite andb_false_r. }
  split; [exact Hv | now apply init_ok].
Qed.

Lemma valid_inputs_are_accepted_witness :
  Expense._validate_inputs (lit "01012024") (lit "Food") (lit " lunch ")
    (PyFloat 10.5) = Ok tt
  /\ Expense.__init__ (lit "t1") (lit "01012024") (lit "Food")
       (lit " lunch ") (PyFloat 10.5)
     = Ok (Expense.mk (lit "01012024") (lit "Food") (lit " lunch ") 10.5
             (lit "t1")).
Proof.
  apply (valid_inputs_are_accepted (lit "t1") (lit "01012024") (lit "Food")
           (lit " lunch ") 10.5); try reflexivity.
  vm_compute. discriminate.
Defined.

(** ** C6 *)

(** The claim as stated fails: with a description of one letter followed by
    100 spaces (trimmed length 1) and the amount 0, only the invariant on the
    amount is violated, and the validator rejects with
    [DescriptionTooLong], not with [NonPositiveAmount]. *)
Lemma single_violation_other_reason :
  let description := lit "a" ++ repeat 32%N 100 in
  violations (lit "01012024") (lit "Food") description (PyFloat 0)
  = [NonPositiveAmount]
  /\ Expense._validate_inputs (lit "01012024") (lit "Food") description
       (PyFloat 0)
     = Raise DescriptionTooLong.
Proof. cbv zeta. split; reflexivity. Qed.

(** C6 (amended). The validator is the first failing check of the list
    date-format, date-range, category, empty-description,
    description-too-long, amount-numeric, non-positive-amount,
    amount-too-large, in this order.  For all inputs that violate exactly one
    invariant, whose description is not one with trimmed length within 100
    and raw length above, whose date has no digit character other than
    '0' .. '9' and whose amount is not NaN, the validator rejects with the
    reason of that invariant. *)
Theorem validation_order_and_reasons :
  (forall date category description amount,
      Expense._validate_inputs date category description amount
      = first_failure checks (mkInputs date category description amount))
  /\
  (forall date category description amount r,
      digits_are_ascii date = true ->
      amount_not_nan amount = true ->
      raw_length_agrees description = true ->
      violations date category description amount = [r] ->
      Expense._validate_inputs date category description amount = Raise r).
Proof.
  split.
  - apply validate_inputs_checks.
  - intros date category description amount r Hd Ha Hs Hv.
    now rewrite validate_first_violation, Hv.
Qed.

Lemma validation_order_and_reasons_witness :
  Expense._validate_inputs (lit "32012024") (lit "Food") (lit "lunch")
    (PyFloat 10.5) = Raise DateOutOfRange
  /\ Expense._validate_inputs (lit "01012024") (lit "Food") (lit "lunch")
       (PyFloat 0) = Raise NonPositiveAmount.
Proof.
  split;
    apply (proj2 validation_order_and_reasons); reflexivity.
Defined.

(** ** C7 *)

(** C7 (the code at failing inputs). From the empty ledger, [add_expense] with
    the amount NaN succeeds and stores a record whose amount is not in
    (0, 1,000,000]; [add_expense] with a date of eight Arabic-Indic digits
    succeeds and stores a record whose date is not made of ASCII digits.
    Both ledgers are reachable. *)
Theorem invalid_records_enter_ledger :
  let empty := new_manager (fun _ => lit "t0") (mkRepo (Json []) 0) in
  let arabic_01012024 :=
    [0x660; 0x661; 0x660; 0x661; 0x662; 0x660; 0x662; 0x664]%N in
  let with_nan :=
    add_expense (lit "t1") Written empty (lit "01012024") (lit "Food")
      (lit "lunch") (PyFloat nan) in
  let with_arabic :=
    add_expense (lit "t1") Written empty arabic_01012024 (lit "Food")
      (lit "lunch") (PyFloat 10.5) in
  (reachable (fst with_nan)
   /\ fst (snd with_nan) = true
   /\ expenses (fst with_nan)
      = [Expense.mk (lit "01012024") (lit "Food") (lit "lunch") nan
           (lit "t1")]
   /\ spec_amount_ok (PyFloat nan) = false)
  /\
  (reachable (fst with_arabic)
   /\ fst (snd with_arabic) = true
   /\ expenses (fst with_arabic)
      = [Expense.mk arabic_01012024 (lit "Food") (lit "lunch") 10.5
           (lit "t1")]
   /\ spec_date_ok arabic_01012024 = false).
Proof.
  cbv zeta. split; (split; [apply reach_add, reach_new | repeat split]).
Qed.

(** ** C8 *)

(** C8. For every ledger and every index below 0 or not below the number of
    records, [delete_expense] returns ([False], "Invalid expense number.")
    and the manager it leaves is the one it was given: the same records, and
    the same repository, with no further call of [save]. *)
Theorem delete_out_of_range :
  forall w self index,
    (index < 0 \/ Z.of_nat (List.length (expenses self)) <= index)%Z ->
    delete_expense w self index = (self, (false, InvalidExpenseNumber)).
Proof.
  intros w self index H. unfold delete_expense.
  destruct H as [H | H].
  - replace (0 <=? index)%Z with false by (symmetry; apply Z.leb_gt; lia).
    reflexivity.
  - replace (index <? Z.of_nat (List.length (expenses self)))%Z with false
      by (symmetry; apply Z.ltb_ge; lia).
    now rewrite andb_false_r.
Qed.

Lemma delete_out_of_range_witness :
  delete_expense Written
    (mkManager (mkRepo (Json []) 0)
       [Expense.mk (lit "01012024") (lit "Food") (lit "lunch") 10.5
          (lit "t1")]) 1
  = (mkManager (mkRepo (Json []) 0)
       [Expense.mk (lit "01012024") (lit "Food") (lit "lunch") 10.5
          (lit "t1")],
     (false, InvalidExpenseNumber))
  /\ delete_expense Written (mkManager (mkRepo (Json []) 0) []) (-1)
     = (mkManager (mkRepo (Json []) 0) [], (false, InvalidExpenseNumber)).
Proof.
  split; apply delete_out_of_range; simpl; lia.
Defined.

(** ** C9 *)

(** C9. The total spending is the sum of the amounts of the records, added
    from the left starting from 0, and is 0 for the empty ledger; the average
    spending is 0 for the empty ledger and the total divided by the number of
    records otherwise. *)
Theorem average_is_total_over_count :
  forall self,
    get_total_spending self
    = fold_left PrimFloat.add (List.map Expense.amount (expenses self))
        0%float
    /\ (expenses self = [] ->
        get_total_spending self = 0%float
        /\ get_average_spending self = 0%float)
    /\ (expenses self <> [] ->
        get_average_spending self
        = (get_total_spending self
           / float_of_nat (List.length (expenses self)))%float).
Proof.
  intros self. split; [reflexivity|]. split.
  - intros H. unfold get_average_spending, get_total_spending.
    now rewrite H.
  - intros H. unfold get_average_spending.
    destruct (expenses self); [congruence | reflexivity].
Qed.

(** The three records of the examples of the specification: amounts 10.50,
    20.00 and 5.25, total 35.75, average 35.75/3, which is the float
    0x1.7d55555555555p+3 (printed 11.916666666666666). *)
Lemma average_is_total_over_count_witness :
  let three :=
    mkManager (mkRepo (Json []) 0)
      [Expense.mk (lit "01012024") (lit "Food") (lit "lunch") 10.5 (lit "t1");
       Expense.mk (lit "02012024") (lit "Travel") (lit "bus") 20 (lit "t2");
       Expense.mk (lit "03012024") (lit "Food") (lit "tea") 5.25 (lit "t3")]
  in
  (get_total_spending (mkManager (mkRepo (Json []) 0) []) = 0%float
   /\ get_average_spending (mkManager (mkRepo (Json []) 0) []) = 0%float)
  /\ get_total_spending three = 35.75%float
  /\ get_average_spending three
     = (get_total_spending three
        / float_of_nat (List.length (expenses three)))%float
  /\ get_average_spending three = 0x1.7d55555555555p+3%float.
Proof.
  intros three. split; [|split; [|split]].
  - apply (proj1 (proj2 (average_is_total_over_count
                           (mkManager (mkRepo (Json []) 0) [])))).
    reflexivity.
  - reflexivity.
  - apply (proj2 (proj2 (average_is_total_over_count three))).
    discriminate.
  - reflexivity.
Defined.

(** ** C10 *)

(** [__eq__] is the conjunction of the three comparisons. *)
Lemma eq_iff (self other : Expense.t) :
  Expense.__eq__ self other = true
  <-> Expense.date self = Expense.date other
      /\ Expense.category self = Expense.category other
      /\ (Expense.amount self =? Expense.amount other)%float = true.
Proof.
  unfold Expense.__eq__. rewrite !andb_true_iff, !eqb_eq. tauto.
Qed.

(** Amounts that are the same number, NaN apart, compare equal: records with
    the same date, category and amount are equal for [__eq__]. *)
Lemma eq_same_fields (date category d1 d2 t1 t2 : str) (amount : float) :
  is_nan amount = false ->
  Expense.__eq__ (Expense.mk date category d1 amount t1)
    (Expense.mk date category d2 amount t2) = true.
Proof.
  intros H. apply eq_iff. cbn. repeat split. now apply float_eqb_refl.
Qed.

(** The claim as stated fails: two records of a reachable ledger with the same
    date, the same category and the same amount, NaN, and different
    descriptions and creation times are not equal for [__eq__], since NaN
    does not compare equal to itself. *)
Lemma same_nan_amount_compares_unequal :
  let a :=
    Expense.mk (lit "01012024") (lit "Food") (lit "lunch") nan (lit "t1") in
  let b :=
    Expense.mk (lit "01012024") (lit "Food") (lit "dinner") nan (lit "t2") in
  let empty := new_manager (fun _ => lit "t0") (mkRepo (Json []) 0) in
  let self :=
    fst (add_expense (lit "t2") Written
           (fst (add_expense (lit "t1") Written empty (lit "01012024")
                   (lit "Food") (lit "lunch") (PyFloat nan)))
           (lit "01012024") (lit "Food") (lit "dinner") (PyFloat nan)) in
  reachable self
  /\ expenses self = [a; b]
  /\ Expense.date a = Expense.date b
  /\ Expense.category a = Expense.category b
  /\ Expense.amount a = Expense.amount b
  /\ Expense.__eq__ a b = false.
Proof.
  cbv zeta. split; [apply reach_add, reach_add, reach_new | repeat split].
Qed.

(** C10 (amended). [__eq__] compares the date, the category and the amount
    and nothing else: it returns true exactly when the two dates are the
    same, the two categories are the same and the two amounts compare equal
    with [==].  So two records with the same date, category and amount, the
    amount not being NaN, are equal for [__eq__] whatever their descriptions
    and creation times. *)
Theorem eq_compares_date_category_amount :
  (forall self other,
      Expense.__eq__ self other = true
      <-> Expense.date self = Expense.date other
          /\ Expense.category self = Expense.category other
          /\ (Expense.amount self =? Expense.amount other)%float = true)
  /\
  (forall date category amount description1 created_at1 description2
          created_at2,
      is_nan amount = false ->
      Expense.__eq__
        (Expense.mk date category description1 amount created_at1)
        (Expense.mk date category description2 amount created_at2)
      = true).
Proof.
  split.
  - apply eq_iff.
  - intros date category amount description1 created_at1 description2
      created_at2 H.
    now apply eq_same_fields.
Qed.

Lemma eq_compares_date_category_amount_witness :
  Expense.__eq__
    (Expense.mk (lit "01012024") (lit "Food") (lit "lunch") 10.5 (lit "t1"))
    (Expense.mk (lit "01012024") (lit "Food") (lit "dinner") 10.5 (lit "t2"))
  = true.
Proof.
  apply (proj2 eq_compares_date_category_amount). reflexivity.
Defined.

End Claims.


(* ================================================================== *)
(** * Further properties: adding, deleting, saving and loading *)
(* ================================================================== *)

Section Mutations.
Import PyStr PyStrFacts FloatFacts.

Lemma init_raise (now date category description : str) (amount : pyvalue)
  (e : ValidationError) :
  Expense._validate_inputs date category description amount = Raise e ->
  Expense.__init__ now date category description amount = Raise e.
Proof. unfold Expense.__init__. now intros ->. Qed.

(** X1. When the validator rejects the inputs, [add_expense] returns
    [False] with the validator's reason and leaves the manager as it was:
    the same records and the same repository, on which [save] was not
    called, whatever the write would have done. *)
Theorem add_expense_rejected_changes_nothing :
  forall now w self date category description amount e,
    Expense._validate_inputs date category description amount = Raise e ->
    add_expense now w self date category description amount
    = (self, (false, ValidationErrorMsg e)).
Proof.
  intros now w self date category description amount e H.
  unfold add_expense. now rewrite (init_raise now _ _ _ _ _ H).
Qed.

Lemma add_expense_rejected_changes_nothing_witness :
  add_expense (lit "t1") Written (mkManager (mkRepo Corrupted 3) [])
    (lit "1012024") (lit "Food") (lit "lunch") (PyFloat 10.5)
  = (mkManager (mkRepo Corrupted 3) [],
     (false, ValidationErrorMsg MalformedDate)).
Proof.
  apply add_expense_rejected_changes_nothing. reflexivity.
Defined.

Lemma add_expense_true (now : str) (w : write_outcome)
  (self : ExpenseManager) (date category description : str)
  (amount : pyvalue) :
  fst (snd (add_expense now w self date category description amount)) = true ->
  exists f,
    amount = PyFloat f
    /\ Expense._validate_inputs date category description amount = Ok tt
    /\ w = Written
    /\ fst (add_expense now w self date category description amount)
       = {| repository :=
              {| contents :=
                   Json (List.map to_dict
                           (expenses self
                            ++ [Expense.mk date category description f now]));
                 saves := S (saves (repository self)) |};
            expenses :=
              expenses self ++ [Expense.mk date category description f now] |}.
Proof.
  unfold add_expense.
  destruct (Expense.__init__ now date category description amount)
    as [e|] eqn:E; [|discriminate].
  apply init_inv in E as (f & -> & -> & Hv).
  destruct w; cbn; [|discriminate].
  intros _. exists f. repeat split. exact Hv.
Qed.

Lemma delete_expense_true (w : write_outcome) (self : ExpenseManager)
  (index : Z) :
  fst (snd (delete_expense w self index)) = true ->
  (0 <= index < Z.of_nat (List.length (expenses self)))%Z
  /\ w = Written
  /\ fst (delete_expense w self index)
     = {| repository :=
            {| contents :=
                 Json (List.map to_dict
                         (firstn (Z.to_nat index) (expenses self)
                          ++ skipn (S (Z.to_nat index)) (expenses self)));
               saves := S (saves (repository self)) |};
          expenses :=
            firstn (Z.to_nat index) (expenses self)
            ++ skipn (S (Z.to_nat index)) (expenses self) |}.
Proof.
  unfold delete_expense.
  destruct ((0 <=? index)%Z
            && (index <? Z.of_nat (List.length (expenses self)))%Z) eqn:B;
    [|discriminate].
  apply andb_true_iff in B as [B1 B2].
  apply Z.leb_le in B1. apply Z.ltb_lt in B2.
  unfold pop.
  destruct (nth_error (expenses self) (Z.to_nat index)); [|discriminate].
  destruct w; cbn; [|discriminate].
  intros _. repeat split; assumption.
Qed.

(** X2. Whenever [add_expense] or [delete_expense] returns [True], the file
    holds the dictionaries of exactly the records the manager has in memory,
    in the same order, and [save] was called once. *)
Theorem success_leaves_file_in_step :
  (forall now w self date category description amount,
      fst (snd (add_expense now w self date category description amount))
      = true ->
      let self' :=
        fst (add_expense now w self date category description amount) in
      contents (repository self') = Json (List.map to_dict (expenses self'))
      /\ saves (repository self') = S (saves (repository self)))
  /\
  (forall w self index,
      fst (snd (delete_expense w self index)) = true ->
      let self' := fst (delete_expense w self index) in
      contents (repository self') = Json (List.map to_dict (expenses self'))
      /\ saves (repository self') = S (saves (repository self))).
Proof.
  split.
  - intros now w self date category description amount H.
    destruct (add_expense_true _ _ _ _ _ _ _ H) as (f & _ & _ & _ & E).
    cbv zeta. rewrite E. split; reflexivity.
  - intros w self index H.
    destruct (delete_expense_true _ _ _ H) as (_ & _ & E).
    cbv zeta. rewrite E. split; reflexivity.
Qed.

Lemma success_leaves_file_in_step_witness :
  let one :=
    mkManager (mkRepo Corrupted 0)
      [Expense.mk (lit "01012024") (lit "Food") (lit "lunch") 10.5
         (lit "t1")] in
  (let self' :=
     fst (add_expense (lit "t2") Written one (lit "02012024") (lit "Travel")
            (lit "bus") (PyFloat 2)) in
   contents (repository self') = Json (List.map to_dict (expenses self'))
   /\ saves (repository self') = S (saves (repository one)))
  /\
  (let self' := fst (delete_expense Written one 0) in
   contents (repository self') = Json (List.map to_dict (expenses self'))
   /\ saves (repository self') = S (saves (repository one))).
Proof.
  intros one. split.
  - apply (proj1 success_leaves_file_in_step). reflexivity.
  - apply (proj2 success_leaves_file_in_step). reflexivity.
Defined.

Lemma nth_error_remove {A : Type} (l : list A) (i j : nat) :
  nth_error (firstn i l ++ skipn (S i) l) j
  = if (j <? i)%nat then nth_error l j else nth_error l (S j).
Proof.
  revert i j. induction l as [|x l IH]; intros i j.
  - rewrite firstn_nil, skipn_nil. cbn [app].
    destruct (j <? i)%nat; destruct j; reflexivity.
  - destruct i as [|i]; cbn [firstn skipn app].
    + reflexivity.
    + destruct j as [|j]; cbn [nth_error]; [reflexivity|].
      rewrite IH. reflexivity.
Qed.

(** X3. With the index within bounds, [delete_expense] removes the record at
    that index and nothing else: the list is one shorter, the records before
    the index keep their position, every later record moves down by one; this
    whether or not the save succeeds.  When the save succeeds the message
    carries the description of the record removed. *)
Theorem delete_expense_shifts_later_records :
  forall w self index,
    (0 <= index < Z.of_nat (List.length (expenses self)))%Z ->
    let self' := fst (delete_expense w self index) in
    S (List.length (expenses self')) = List.length (expenses self)
    /\ (forall j, (j < Z.to_nat index)%nat ->
                  nth_error (expenses self') j = nth_error (expenses self) j)
    /\ (forall j, (Z.to_nat index <= j)%nat ->
                  nth_error (expenses self') j
                  = nth_error (expenses self) (S j))
    /\ (w = Written ->
        exists deleted,
          nth_error (expenses self) (Z.to_nat index) = Some deleted
          /\ snd (delete_expense w self index)
             = (true, DeletedMsg (Expense.description deleted))).
Proof.
  intros w self index [Hlo Hhi].
  destruct (pop_in_range (expenses self) (Z.to_nat index))
    as (deleted & Hnth & Hpop); [lia|].
  assert (E : expenses (fst (delete_expense w self index))
              = firstn (Z.to_nat index) (expenses self)
                ++ skipn (S (Z.to_nat index)) (expenses self)
              /\ (w = Written ->
                  snd (delete_expense w self index)
                  = (true, DeletedMsg (Expense.description deleted)))).
  { unfold delete_expense.
    replace (0 <=? index)%Z with true by (symmetry; now apply Z.leb_le).
    replace (index <? Z.of_nat (List.length (expenses self)))%Z with true
      by (symmetry; now apply Z.ltb_lt).
    cbn [andb]. rewrite Hpop. destruct w; cbn; split; auto; discriminate. }
  destruct E as [E Hmsg]. cbv zeta. rewrite E.
  split; [|split; [|split]].
  - rewrite length_app, length_firstn, length_skipn. lia.
  - intros j Hj. rewrite nth_error_remove.
    now replace (j <? Z.to_nat index)%nat with true
      by (symmetry; now apply Nat.ltb_lt).
  - intros j Hj. rewrite nth_error_remove.
    now replace (j <? Z.to_nat index)%nat with false
      by (symmetry; now apply Nat.ltb_ge).
  - intros Hw. exists deleted. split; [exact Hnth | now apply Hmsg].
Qed.

Lemma delete_expense_shifts_later_records_witness :
  let three :=
    mkManager (mkRepo (Json []) 0)
      [Expense.mk (lit "01012024") (lit "Food") (lit "lunch") 10.5 (lit "t1");
       Expense.mk (lit "02012024") (lit "Travel") (lit "bus") 20 (lit "t2");
       Expense.mk (lit "03012024") (lit "Food") (lit "tea") 5.25 (lit "t3")]
  in
  let self' := fst (delete_expense Written three 1) in
  S (List.length (expenses self')) = List.length (expenses three)
  /\ (forall j, (j < Z.to_nat 1)%nat ->
                nth_error (expenses self') j = nth_error (expenses three) j)
  /\ (forall j, (Z.to_nat 1 <= j)%nat ->
                nth_error (expenses self') j
                = nth_error (expenses three) (S j))
  /\ (Written = Written ->
      exists deleted,
        nth_error (expenses three) (Z.to_nat 1) = Some deleted
        /\ snd (delete_expense Written three 1)
           = (true, DeletedMsg (Expense.description deleted))).
Proof.
  intros three.
  apply (delete_expense_shifts_later_records Written three 1).
  simpl. lia.
Defined.

Lemma json_reload_stable (s : str) :
  no_surrogate_pair s = true -> json_reload s = s.
Proof.
  induction s as [|c rest IH]; [reflexivity|].
  cbn [no_surrogate_pair json_reload]. intros H.
  apply andb_true_iff in H as [Hp Hr].
  destruct rest as [|d rest']; [reflexivity|].
  apply negb_true_iff in Hp. rewrite Hp. f_equal. now apply IH.
Qed.

Lemma no_high_surrogate_no_pair (s : str) :
  forallb (fun c => negb (is_high_surrogate c)) s = true ->
  no_surrogate_pair s = true.
Proof.
  induction s as [|c rest IH]; [reflexivity|].
  cbn [forallb no_surrogate_pair]. intros H.
  apply andb_true_iff in H as [Hc Hr]. rewrite (IH Hr), andb_true_r.
  destruct rest; [reflexivity|].
  apply negb_true_iff in Hc. now rewrite Hc.
Qed.

Ltac outside_range :=
  repeat match goal with
  | |- context [((?a <=? ?c) && (?c <? ?b))%N] =>
      replace ((a <=? c) && (c <? b))%N with false
        by (symmetry; apply andb_false_iff;
            rewrite N.leb_gt, N.ltb_ge; lia)
  | |- context [((?a <=? ?c) && (?c <=? ?b))%N] =>
      replace ((a <=? c) && (c <=? b))%N with false
        by (symmetry; apply andb_false_iff;
            rewrite !N.leb_gt; lia)
  end.

(** No digit character is a surrogate. *)
Lemma digit_not_high_surrogate (c : char) :
  isdigit_char c = true -> is_high_surrogate c = false.
Proof.
  intros H. destruct (is_high_surrogate c) eqn:S; [|reflexivity].
  unfold is_high_surrogate in S. apply andb_true_iff in S as [S1 S2].
  apply N.leb_le in S1, S2.
  unfold isdigit_char, isdecimal_char, decimal_value, decimal_runs,
    in_ranges, other_digit_ranges, in_range in H.
  cbn [decimal_in existsb fst snd] in H.
  revert H. outside_range. cbn. discriminate.
Qed.

Lemma checked_date_stable (e : Expense.t) :
  checked e -> json_reload (Expense.date e) = Expense.date e.
Proof.
  intros H. apply validate_inputs_inv in H as (H & _).
  apply json_reload_stable, no_high_surrogate_no_pair.
  unfold Expense.validate_date in H.
  destruct (isdigit (Expense.date e)) eqn:D.
  2:{ rewrite orb_true_r in H. discriminate. }
  unfold isdigit in D. destruct (Expense.date e) as [|c s]; [discriminate|].
  rewrite forallb_forall in D. apply forallb_forall. intros x Hx.
  now rewrite (digit_not_high_surrogate x (D x Hx)).
Qed.

Lemma checked_category_stable (e : Expense.t) :
  checked e -> json_reload (Expense.category e) = Expense.category e.
Proof.
  intros H. apply validate_inputs_inv in H as (_ & H & _).
  unfold Expense.validate_category in H.
  destruct (mem (Expense.category e) ExpenseCategory) eqn:M; [|discriminate].
  apply mem_In in M. cbn in M.
  repeat (destruct M as [M | M]; [rewrite <- M; reflexivity|]).
  destruct M.
Qed.

Lemma from_dicts_reloaded (clock : nat -> str) (l : list Expense.t) :
  Forall checked l ->
  Forall (fun e => no_surrogate_pair (Expense.description e) = true) l ->
  forall i, from_dicts clock i (List.map reload_dict (List.map to_dict l))
            = Ok (restamp_all clock i l).
Proof.
  induction 1 as [|e l He _ IH]; intros Hs i; cbn [List.map from_dicts].
  - reflexivity.
  - inversion Hs as [|? ? Hd Hl]; subst.
    unfold from_dict at 1.
    cbn [reload_dict to_dict dict_date dict_category dict_description
           dict_amount].
    rewrite (checked_date_stable e He), (checked_category_stable e He),
      (json_reload_stable _ Hd).
    rewrite (init_ok _ _ _ _ _ He). cbn [bind].
    rewrite (IH Hl). reflexivity.
Qed.

Lemma reopen_in_step (clock : nat -> str) (self : ExpenseManager) :
  Forall checked (expenses self) ->
  Forall (fun e => no_surrogate_pair (Expense.description e) = true)
    (expenses self) ->
  contents (repository self) = Json (List.map to_dict (expenses self)) ->
  expenses (new_manager clock (reopened (repository self)))
  = restamp_all clock 0 (expenses self).
Proof.
  intros Hc Hd Hs. unfold new_manager, _load_expenses, load, reopened.
  cbn [repository contents]. rewrite Hs.
  rewrite (from_dicts_reloaded clock _ Hc Hd 0). reflexivity.
Qed.

(** Without the condition on the descriptions the records are not the same:
    a description made of the two surrogates of U+1F600 is accepted and
    saved, and comes back as the one character U+1F600. *)
Lemma restart_joins_surrogate_pair :
  let clock := fun _ : nat => lit "t9" in
  let self' :=
    fst (add_expense (lit "t1") Written
           (new_manager clock (mkRepo (Json []) 0))
           (lit "01012024") (lit "Food") [0xD83D; 0xDE00]%N (PyFloat 10.5)) in
  List.map Expense.description (expenses self') = [[0xD83D; 0xDE00]%N]
  /\ List.map Expense.description
       (expenses (new_manager clock (reopened (repository self'))))
     = [[0x1F600]%N].
Proof. cbv zeta. split; reflexivity. Qed.


(** X4. Starting again after a mutation that returned [True]: when no
    description of the ledger has a high surrogate followed by a low
    surrogate, a manager built on the file that a reachable manager wrote in
    a successful [add_expense] or [delete_expense], read back by [json.load],
    holds the same records in the same order, with the same date, category,
    description and amount, each with the time of its re-creation as
    [created_at]. *)
Theorem restart_after_success_restores_records :
  forall clock self,
    reachable self ->
    (forall now w date category description amount,
        fst (snd (add_expense now w self date category description amount))
        = true ->
        let self' :=
          fst (add_expense now w self date category description amount) in
        Forall (fun e => no_surrogate_pair (Expense.description e) = true)
          (expenses self') ->
        expenses (new_manager clock (reopened (repository self')))
        = restamp_all clock 0 (expenses self'))
    /\
    (forall w index,
        fst (snd (delete_expense w self index)) = true ->
        let self' := fst (delete_expense w self index) in
        Forall (fun e => no_surrogate_pair (Expense.description e) = true)
          (expenses self') ->
        expenses (new_manager clock (reopened (repository self')))
        = restamp_all clock 0 (expenses self')).
Proof.
  intros clock self Hr. split.
  - intros now w date category description amount H. cbv zeta. intros Hd.
    apply reopen_in_step.
    + apply reachable_checked. now apply reach_add.
    + exact Hd.
    + destruct (add_expense_true _ _ _ _ _ _ _ H) as (f & _ & _ & _ & E).
      now rewrite E.
  - intros w index H. cbv zeta. intros Hd.
    apply reopen_in_step.
    + apply reachable_checked. now apply reach_delete.
    + exact Hd.
    + destruct (delete_expense_true _ _ _ H) as (_ & _ & E).
      now rewrite E.
Qed.

Lemma restart_after_success_restores_records_witness :
  let clock := fun _ : nat => lit "t9" in
  let self := new_manager clock (mkRepo Corrupted 0) in
  let self' :=
    fst (add_expense (lit "t1") Written self (lit "01012024") (lit "Food")
           (lit "lunch") (PyFloat 10.5)) in
  expenses (new_manager clock (reopened (repository self')))
  = restamp_all clock 0 (expenses self').
Proof.
  intros clock self.
  apply (proj1 (restart_after_success_restores_records clock self
                  (reach_new clock (mkRepo Corrupted 0)))).
  - reflexivity.
  - repeat constructor.
Defined.

End Mutations.


Section Loading.
Import PyStr PyStrFacts FloatFacts.

Lemma from_dict_valid (now : str) (data : ExpenseDict) :
  row_valid data ->
  exists e, from_dict now data = Ok e
            /\ same_fields data e /\ Expense.created_at e = now.
Proof.
  unfold row_valid, from_dict. intros H.
  destruct (validate_inputs_float _ _ _ _ H) as [f Hf].
  rewrite Hf in *. rewrite (init_ok now _ _ _ _ H).
  eexists. split; [reflexivity|]. unfold same_fields. cbn. auto.
Qed.

Lemma from_dict_invalid (now : str) (data : ExpenseDict) :
  ~ row_valid data -> exists r, from_dict now data = Raise r.
Proof.
  unfold row_valid, from_dict. intros H.
  destruct (Expense._validate_inputs (dict_date data) (dict_category data)
              (dict_description data) (dict_amount data)) as [[]|r] eqn:E.
  - now contradiction H.
  - exists r. now apply init_raise.
Qed.

Lemma from_dicts_invalid (clock : nat -> str) (data : list ExpenseDict) :
  Exists (fun item => ~ row_valid item) data ->
  forall i, exists r, from_dicts clock i data = Raise r.
Proof.
  induction 1 as [item rest H | item rest _ IH]; intros i; cbn [from_dicts].
  - destruct (from_dict_invalid (clock i) item H) as [r ->]. now exists r.
  - destruct (from_dict (clock i) item) as [e|r]; cbn [bind].
    + destruct (IH (S i)) as [r ->]. now exists r.
    + now exists r.
Qed.

Lemma from_dicts_valid (clock : nat -> str) (data : list ExpenseDict) :
  Forall row_valid data ->
  forall i, exists l,
    from_dicts clock i data = Ok l
    /\ Forall2 same_fields data l
    /\ (forall j e, nth_error l j = Some e ->
                    Expense.created_at e = clock (i + j)).
Proof.
  induction 1 as [|item rest H _ IH]; intros i; cbn [from_dicts].
  - exists []. split; [reflexivity|]. split; [constructor|].
    intros [|j] e; discriminate.
  - destruct (from_dict_valid (clock i) item H) as (e & -> & Hs & Ht).
    destruct (IH (S i)) as (l & -> & Hl & Hc). cbn [bind].
    exists (e :: l). split; [reflexivity|]. split; [now constructor|].
    intros [|j] e'; cbn [nth_error].
    + intros [= <-]. now rewrite Nat.add_0_r.
    + intros Hj. rewrite (Hc j e' Hj). f_equal. lia.
Qed.

(** X5. Loading is all or nothing.  When one item of the file does not pass
    the checks of the constructor, [load] raises [DataPersistenceError] and
    the manager starts with no record at all, whatever the other items are.
    When every item passes, [load] gives one record for each item, in the
    order of the file, with the date, category, description and amount of the
    item and the time of its construction as [created_at]. *)
Theorem load_is_all_or_nothing :
  (forall clock n data,
      Exists (fun item => ~ row_valid item) data ->
      load clock (mkRepo (Json data) n) = Raise PersistenceError
      /\ expenses (new_manager clock (mkRepo (Json data) n)) = [])
  /\
  (forall clock n data,
      Forall row_valid data ->
      exists l,
        load clock (mkRepo (Json data) n) = Ok l
        /\ expenses (new_manager clock (mkRepo (Json data) n)) = l
        /\ Forall2 same_fields data l
        /\ (forall j e, nth_error l j = Some e ->
                        Expense.created_at e = clock j)).
Proof.
  split.
  - intros clock n data H.
    destruct (from_dicts_invalid clock data H 0) as [r Hr].
    unfold new_manager, _load_expenses, load. cbn [repository contents].
    rewrite Hr. split; reflexivity.
  - intros clock n data H.
    destruct (from_dicts_valid clock data H 0) as (l & Hl & Hs & Hc).
    exists l. unfold new_manager, _load_expenses, load.
    cbn [repository contents]. rewrite Hl. repeat split; assumption.
Qed.

Lemma load_is_all_or_nothing_witness :
  let good :=
    mkDict (lit "01012024") (lit "Food") (lit "lunch") (PyFloat 10.5)
      (lit "t1") in
  let bad :=
    mkDict (lit "01012024") (lit "food") (lit "lunch") (PyFloat 10.5)
      (lit "t2") in
  let clock := fun _ : nat => lit "t9" in
  (load clock (mkRepo (Json [good; bad]) 0) = Raise PersistenceError
   /\ expenses (new_manager clock (mkRepo (Json [good; bad]) 0)) = [])
  /\
  (exists l,
      load clock (mkRepo (Json [good; good]) 0) = Ok l
      /\ expenses (new_manager clock (mkRepo (Json [good; good]) 0)) = l
      /\ Forall2 same_fields [good; good] l
      /\ (forall j e, nth_error l j = Some e ->
                      Expense.created_at e = clock j)).
Proof.
  intros good bad clock. split.
  - apply (proj1 load_is_all_or_nothing).
    apply Exists_cons_tl, Exists_cons_hd. unfold row_valid.
    vm_compute. discriminate.
  - apply (proj2 load_is_all_or_nothing).
    repeat constructor.
Defined.

(** X6. After a load that raised, the manager is empty, and the first
    [add_expense] that succeeds writes the file anew with the one new record:
    what the file held before, valid items included, is no longer in it. *)
Theorem add_after_failed_load_overwrites_file :
  forall clock repo now date category description f,
    load clock repo = Raise PersistenceError ->
    Expense._validate_inputs date category description (PyFloat f) = Ok tt ->
    let self' :=
      fst (add_expense now Written (new_manager clock repo) date category
             description (PyFloat f)) in
    expenses self' = [Expense.mk date category description f now]
    /\ contents (repository self')
       = Json [to_dict (Expense.mk date category description f now)].
Proof.
  intros clock repo now date category description f Hl Hv. cbv zeta.
  unfold new_manager, _load_expenses. cbn [repository]. rewrite Hl.
  unfold add_expense. rewrite (init_ok now _ _ _ _ Hv). cbn.
  split; reflexivity.
Qed.

Lemma add_after_failed_load_overwrites_file_witness :
  let good :=
    mkDict (lit "01012024") (lit "Food") (lit "lunch") (PyFloat 10.5)
      (lit "t1") in
  let bad :=
    mkDict (lit "01012024") (lit "food") (lit "lunch") (PyFloat 10.5)
      (lit "t2") in
  let clock := fun _ : nat => lit "t9" in
  let self' :=
    fst (add_expense (lit "t3") Written
           (new_manager clock (mkRepo (Json [good; bad]) 0))
           (lit "02012024") (lit "Travel") (lit "bus") (PyFloat 2)) in
  expenses self'
  = [Expense.mk (lit "02012024") (lit "Travel") (lit "bus") 2 (lit "t3")]
  /\ contents (repository self')
     = Json [to_dict (Expense.mk (lit "02012024") (lit "Travel") (lit "bus")
                        2 (lit "t3"))].
Proof.
  intros good bad clock.
  apply (add_after_failed_load_overwrites_file clock
           (mkRepo (Json [good; bad]) 0)); reflexivity.
Defined.

(** X7. Take a data file whose items have strings as date, category and
    description and a float or null as amount (every file [save] writes from
    float amounts is one), and any sequence of [add_expense] with a float or
    [None] as amount and of [delete_expense].  In the ledger they lead to,
    every record whose date has no digit character other than '0' .. '9' and
    whose amount is not NaN satisfies the four invariants: a date of 8 ASCII
    digits with day in [1,31], month in [1,12] and year in [1900,2100], one of
    the eight categories, a description of trimmed length in [1,100], an
    amount in (0, 1,000,000].  (An amount given as an integer or as a numeric
    string, which the constructor would store as it is, is outside these
    ledgers.) *)
Theorem reachable_records_satisfy_invariants :
  forall self e,
    reachable self ->
    In e (expenses self) ->
    digits_are_ascii (Expense.date e) = true ->
    is_nan (Expense.amount e) = false ->
    spec_date_ok (Expense.date e) = true
    /\ spec_category_ok (Expense.category e) = true
    /\ spec_description_ok (Expense.description e) = true
    /\ spec_amount_ok (PyFloat (Expense.amount e)) = true.
Proof.
  intros self e Hr Hin Hd Hn.
  pose proof (reachable_checked self Hr) as H.
  rewrite Forall_forall in H.
  pose proof (checked_spec e (H e Hin) Hd Hn) as Hs.
  unfold spec_record_ok in Hs.
  apply andb_true_iff in Hs as [Hs H4].
  apply andb_true_iff in Hs as [Hs H3].
  apply andb_true_iff in Hs as [H1 H2].
  repeat split; assumption.
Qed.

Lemma reachable_records_satisfy_invariants_witness :
  let e :=
    Expense.mk (lit "01012024") (lit "Food") (lit "lunch") 10.5 (lit "t1") in
  spec_date_ok (Expense.date e) = true
  /\ spec_category_ok (Expense.category e) = true
  /\ spec_description_ok (Expense.description e) = true
  /\ spec_amount_ok (PyFloat (Expense.amount e)) = true.
Proof.
  intros e.
  apply (reachable_records_satisfy_invariants
           (fst (add_expense (lit "t1") Written
                   (new_manager (fun _ => lit "t0") (mkRepo (Json []) 0))
                   (lit "01012024") (lit "Food") (lit "lunch")
                   (PyFloat 10.5))) e).
  - apply reach_add, reach_new.
  - simpl. left. reflexivity.
  - reflexivity.
  - reflexivity.
Defined.

End Loading.


(* ================================================================== *)
(** * Further properties: filters and breakdowns *)
(* ================================================================== *)

Section Dicts.
Import PyStr PyStrFacts.

Lemma eqb_false_neq (s t : str) : eqb s t = false <-> s <> t.
Proof.
  rewrite <- eqb_eq. destruct (eqb s t); split; congruence.
Qed.

Lemma eqb_sym (s t : str) : eqb s t = eqb t s.
Proof.
  destruct (eqb s t) eqn:E.
  - apply eqb_eq in E. subst. symmetry. apply eqb_refl.
  - apply eqb_false_neq in E. symmetry. apply eqb_false_neq. congruence.
Qed.

Lemma dict_get_set_same {V : Type} (d : list (str * V)) (k : str) (v : V) :
  dict_get (dict_set d k v) k = Some v.
Proof.
  induction d as [|[k0 v0] d IH]; cbn.
  - now rewrite eqb_refl.
  - destruct (eqb k0 k) eqn:E; cbn; rewrite E; [reflexivity | exact IH].
Qed.

Lemma dict_get_set_other {V : Type} (d : list (str * V)) (k k' : str)
  (v : V) :
  k <> k' -> dict_get (dict_set d k v) k' = dict_get d k'.
Proof.
  intros Hne. induction d as [|[k0 v0] d IH]; cbn.
  - now replace (eqb k k') with false by (symmetry; now apply eqb_false_neq).
  - destruct (eqb k0 k) eqn:E; cbn.
    + apply eqb_eq in E. subst k0.
      now replace (eqb k k') with false
        by (symmetry; now apply eqb_false_neq).
    + now rewrite IH.
Qed.

Lemma dict_get_None {V : Type} (d : list (str * V)) (k : str) :
  dict_get d k = None <-> ~ In k (dict_keys d).
Proof.
  induction d as [|[k0 v0] d IH]; cbn.
  - tauto.
  - destruct (eqb k0 k) eqn:E.
    + apply eqb_eq in E. split; [discriminate | tauto].
    + apply eqb_false_neq in E. rewrite IH. tauto.
Qed.

Lemma dict_keys_set {V : Type} (d : list (str * V)) (k : str) (v : V) :
  dict_keys (dict_set d k v)
  = if mem k (dict_keys d) then dict_keys d else dict_keys d ++ [k].
Proof.
  induction d as [|[k0 v0] d IH]; cbn.
  - reflexivity.
  - rewrite (eqb_sym k k0).
    destruct (eqb k0 k) eqn:E; cbn; [reflexivity|].
    unfold dict_keys in IH. fold (mem k (List.map fst d)). rewrite IH.
    now destruct (mem k (List.map fst d)).
Qed.

Lemma NoDup_snoc (l : list str) (k : str) :
  NoDup l -> ~ In k l -> NoDup (l ++ [k]).
Proof.
  induction 1 as [|x l Hx _ IH]; cbn; intros Hk.
  - constructor; [tauto | constructor].
  - constructor.
    + rewrite in_app_iff. cbn. intros [H | [H | []]]; [tauto|].
      subst. tauto.
    + apply IH. tauto.
Qed.

Lemma dict_set_NoDup {V : Type} (d : list (str * V)) (k : str) (v : V) :
  NoDup (dict_keys d) -> NoDup (dict_keys (dict_set d k v)).
Proof.
  intros H. rewrite dict_keys_set.
  destruct (mem k (dict_keys d)) eqn:E; [exact H|].
  apply NoDup_snoc; [exact H|].
  intros Hin. apply mem_In in Hin. congruence.
Qed.

End Dicts.

Section Categories.
Import PyStr PyStrFacts FloatFacts.

Lemma checked_category (e : Expense.t) :
  checked e -> mem (Expense.category e) ExpenseCategory = true.
Proof.
  intros H. apply validate_inputs_inv in H as (_ & H & _).
  unfold Expense.validate_category in H.
  now destruct (mem (Expense.category e) ExpenseCategory).
Qed.

Lemma filter_none {A : Type} (p : A -> bool) (l : list A) :
  (forall x, In x l -> p x = false) -> List.filter p l = [].
Proof.
  induction l as [|x l IH]; cbn; intros H; [reflexivity|].
  rewrite (H x) by now left. apply IH. intros y Hy. apply H. now right.
Qed.

Lemma list_sum_add {A : Type} (f g : A -> nat) (l : list A) :
  list_sum (List.map (fun x => f x + g x)%nat l)
  = (list_sum (List.map f l) + list_sum (List.map g l))%nat.
Proof.
  unfold list_sum. induction l as [|x l IH]; cbn [List.map fold_right];
    [reflexivity|]. rewrite IH. lia.
Qed.

Lemma one_category (category : str) :
  mem category ExpenseCategory = true ->
  list_sum
    (List.map (fun c => if eqb category c then 1%nat else 0%nat)
       ExpenseCategory) = 1%nat.
Proof.
  intros H. apply mem_In in H. cbn in H.
  repeat (destruct H as [H | H]; [subst category; reflexivity|]).
  destruct H.
Qed.

Lemma filter_lengths (l : list Expense.t) :
  Forall checked l ->
  list_sum
    (List.map
       (fun c =>
          List.length
            (List.filter (fun exp => eqb (Expense.category exp) c) l))
       ExpenseCategory)
  = List.length l.
Proof.
  induction 1 as [|e l He _ IH].
  - reflexivity.
  - transitivity
      (list_sum
         (List.map
            (fun c =>
               (if eqb (Expense.category e) c then 1 else 0)
               + List.length
                   (List.filter (fun exp => eqb (Expense.category exp) c) l))%nat
            ExpenseCategory)).
    + f_equal. apply map_ext. intros c. cbn [List.filter].
      now destruct (eqb (Expense.category e) c).
    + rewrite list_sum_add, IH.
      now rewrite (one_category _ (checked_category e He)).
Qed.

(** X8. In a reachable ledger the eight categories split the records: the
    numbers of records [filter_by_category] returns for the eight labels add
    up to the number of records of the ledger; and for a label that is not
    one of the eight, a different case included, it returns nothing. *)
Theorem categories_partition_ledger :
  forall self,
    reachable self ->
    list_sum
      (List.map (fun c => List.length (filter_by_category self c))
         ExpenseCategory)
    = List.length (expenses self)
    /\ (forall category,
           mem category ExpenseCategory = false ->
           filter_by_category self category = []).
Proof.
  intros self Hr. pose proof (reachable_checked self Hr) as Hc. split.
  - unfold filter_by_category. now apply filter_lengths.
  - intros category Hm. unfold filter_by_category.
    apply filter_none. intros e He.
    rewrite Forall_forall in Hc.
    pose proof (checked_category e (Hc e He)) as Hcat.
    destruct (eqb (Expense.category e) category) eqn:E; [|reflexivity].
    apply eqb_eq in E. congruence.
Qed.

Lemma categories_partition_ledger_witness :
  let self :=
    fst (add_expense (lit "t1") Written
           (new_manager (fun _ => lit "t0") (mkRepo (Json []) 0))
           (lit "01012024") (lit "Food") (lit "lunch") (PyFloat 10.5)) in
  list_sum
    (List.map (fun c => List.length (filter_by_category self c))
       ExpenseCategory)
  = List.length (expenses self)
  /\ (forall category,
         mem category ExpenseCategory = false ->
         filter_by_category self category = []).
Proof.
  intros self.
  apply (categories_partition_ledger self).
  apply reach_add, reach_new.
Defined.

(** X9. [filter_by_category] returns the records of the ledger whose category
    is the label given, each as often as it is in the ledger, and keeps their
    order: filtering the ledger up to a position and the ledger after it and
    joining the results is filtering the whole. *)
Theorem filter_by_category_keeps_order :
  forall repo l1 l2 category,
    filter_by_category (mkManager repo (l1 ++ l2)) category
    = filter_by_category (mkManager repo l1) category
      ++ filter_by_category (mkManager repo l2) category
    /\ (forall e,
           In e (filter_by_category (mkManager repo (l1 ++ l2)) category)
           <-> In e (l1 ++ l2) /\ Expense.category e = category)
    /\ (forall e,
           Expense.category e = category ->
           filter_by_category (mkManager repo [e]) category = [e]).
Proof.
  intros repo l1 l2 category. unfold filter_by_category. cbn [expenses].
  split; [apply filter_app|]. split.
  - intros e. rewrite filter_In, eqb_eq. reflexivity.
  - intros e <-. cbn. now rewrite eqb_refl.
Qed.

Lemma filter_by_category_keeps_order_witness :
  filter_by_category
    (mkManager (mkRepo (Json []) 0)
       [Expense.mk (lit "01012024") (lit "Food") (lit "lunch") 10.5
          (lit "t1")])
    (lit "Food")
  = [Expense.mk (lit "01012024") (lit "Food") (lit "lunch") 10.5 (lit "t1")].
Proof.
  apply (proj2 (proj2 (filter_by_category_keeps_order (mkRepo (Json []) 0)
                         [] [] (lit "Food")))).
  reflexivity.
Defined.

End Categories.


Section Breakdown.
Import PyStr PyStrFacts FloatFacts.

(** What one turn of the loop does to the entry of a category. *)
Lemma add_spending_get (d : list (str * float)) (e : Expense.t) (c : str) :
  dict_get (add_spending d e) c
  = if eqb (Expense.category e) c
    then Some ((match dict_get d c with Some v => v | None => 0 end
                + Expense.amount e)%float)
    else dict_get d c.
Proof.
  unfold add_spending.
  destruct (eqb (Expense.category e) c) eqn:E.
  - apply eqb_eq in E. subst c.
    destruct (dict_get d (Expense.category e)) as [v|] eqn:G.
    + rewrite G. apply dict_get_set_same.
    + rewrite dict_get_set_same. apply dict_get_set_same.
  - apply eqb_false_neq in E.
    destruct (dict_get d (Expense.category e)) as [v|] eqn:G.
    + rewrite G. now apply dict_get_set_other.
    + rewrite dict_get_set_same.
      rewrite !dict_get_set_other by assumption. reflexivity.
Qed.

Lemma add_spending_NoDup (d : list (str * float)) (e : Expense.t) :
  NoDup (dict_keys d) -> NoDup (dict_keys (add_spending d e)).
Proof.
  intros H. unfold add_spending.
  destruct (dict_get d (Expense.category e)) as [v|] eqn:G.
  - rewrite G. now apply dict_set_NoDup.
  - rewrite dict_get_set_same. now do 2 apply dict_set_NoDup.
Qed.

Lemma spending_get (l : list Expense.t) (c : str) :
  dict_get (fold_left add_spending l []) c
  = match List.filter (fun exp => eqb (Expense.category exp) c) l with
    | [] => None
    | es => Some (fold_left PrimFloat.add (List.map Expense.amount es) 0%float)
    end.
Proof.
  induction l as [|e l IH] using rev_ind.
  - reflexivity.
  - rewrite fold_left_app. cbn [fold_left].
    rewrite add_spending_get, IH, filter_app. cbn [List.filter].
    destruct (eqb (Expense.category e) c).
    + destruct (List.filter (fun exp => eqb (Expense.category exp) c) l)
        as [|x xs]; [reflexivity|].
      cbn [app].
      change (x :: xs ++ [e]) with ((x :: xs) ++ [e]).
      now rewrite map_app, fold_left_app.
    + now rewrite app_nil_r.
Qed.

Lemma spending_NoDup (l : list Expense.t) :
  NoDup (dict_keys (fold_left add_spending l [])).
Proof.
  induction l as [|e l IH] using rev_ind.
  - constructor.
  - rewrite fold_left_app. cbn [fold_left]. now apply add_spending_NoDup.
Qed.

(** X10. The breakdown [get_spending_by_category] returns has no entry for a
    category without a record, and for a category with records its entry is
    the amounts of these records added one after the other, in the order of
    the ledger, starting from 0. *)
Theorem spending_by_category_entry :
  forall self category,
    dict_get (get_spending_by_category self) category
    = match amounts_of self category with
      | [] => None
      | amounts => Some (fold_left PrimFloat.add amounts 0%float)
      end.
Proof.
  intros self category.
  unfold get_spending_by_category, amounts_of, filter_by_category.
  rewrite spending_get.
  now destruct (List.filter
                  (fun exp => eqb (Expense.category exp) category)
                  (expenses self)).
Qed.

(** X11. The keys of the breakdown are distinct, and they are the categories
    of the records of the ledger: a category is a key exactly when some
    record has it. *)
Theorem spending_by_category_keys :
  forall self,
    NoDup (dict_keys (get_spending_by_category self))
    /\ (forall category,
           In category (dict_keys (get_spending_by_category self))
           <-> exists e, In e (expenses self)
                         /\ Expense.category e = category).
Proof.
  intros self. split; [apply spending_NoDup|].
  intros category.
  pose proof (dict_get_None (get_spending_by_category self) category) as HN.
  unfold get_spending_by_category in *. rewrite spending_get in HN.
  destruct (List.filter (fun exp => eqb (Expense.category exp) category)
              (expenses self)) as [|e es] eqn:F.
  - split.
    + intros Hin. exfalso. now apply HN.
    + intros (e & He & Hc).
      assert (Hf : In e (List.filter
                           (fun exp => eqb (Expense.category exp) category)
                           (expenses self))).
      { apply filter_In. split; [exact He | now apply eqb_eq]. }
      rewrite F in Hf. destruct Hf.
  - split.
    + intros _. exists e.
      assert (Hf : In e (List.filter
                           (fun exp => eqb (Expense.category exp) category)
                           (expenses self))).
      { rewrite F. now left. }
      apply filter_In in Hf as [He Hc]. apply eqb_eq in Hc. auto.
    + intros _.
      destruct (in_dec (list_eq_dec N.eq_dec) category
                  (dict_keys (fold_left add_spending (expenses self) [])))
        as [Hin | Hout]; [exact Hin|].
      apply HN in Hout. discriminate.
Qed.

End Breakdown.


(* ================================================================== *)
(** * Further properties: statistics, equality, date ranges *)
(* ================================================================== *)

Ltac compare_cases :=
  repeat match goal with
  | |- context [Z.compare ?a ?b] =>
      let H := fresh in destruct (Z.compare_spec a b) as [H|H|H]; try subst
  | |- context [Pos.compare_cont Eq ?a ?b] =>
      change (Pos.compare_cont Eq a b) with (Pos.compare a b)
  | |- context [Pos.compare ?a ?b] =>
      let H := fresh in destruct (Pos.compare_spec a b) as [H|H|H]; try subst
  end.

Ltac float_cases x y z :=
  destruct x as [[]|[]| |[] ? ?], y as [[]|[]| |[] ? ?],
    z as [[]|[]| |[] ? ?];
  simpl; try discriminate; try reflexivity;
  compare_cases; simpl; try discriminate; try reflexivity; try lia.

Module FloatOrder.
Import FloatFacts.

Lemma SFleb_trans (x y z : spec_float) :
  SFleb x y = true -> SFleb y z = true -> SFleb x z = true.
Proof. unfold SFleb. float_cases x y z. Qed.

Lemma SFeqb_trans (x y z : spec_float) :
  SFeqb x y = true -> SFeqb y z = true -> SFeqb x z = true.
Proof. unfold SFeqb. float_cases x y z. Qed.

Lemma float_leb_trans (f g h : float) :
  (f <=? g)%float = true -> (g <=? h)%float = true ->
  (f <=? h)%float = true.
Proof. rewrite !leb_spec. apply SFleb_trans. Qed.

Lemma float_eqb_trans (f g h : float) :
  (f =? g)%float = true -> (g =? h)%float = true -> (f =? h)%float = true.
Proof. rewrite !eqb_spec. apply SFeqb_trans. Qed.

Lemma float_eqb_sym (f g : float) : (f =? g)%float = (g =? f)%float.
Proof.
  rewrite !eqb_spec. unfold SFeqb.
  rewrite (SFcompare_swap (Prim2SF f) (Prim2SF g)).
  now destruct (SFcompare (Prim2SF f) (Prim2SF g)) as [[]|].
Qed.

Lemma float_eqb_self (f : float) : (f =? f)%float = negb (is_nan f).
Proof. unfold is_nan. now rewrite negb_involutive. Qed.

Lemma float_ltb_leb (f g : float) :
  (f <? g)%float = true -> (f <=? g)%float = true.
Proof.
  rewrite ltb_spec, leb_spec. unfold SFltb, SFleb.
  now destruct (SFcompare (Prim2SF f) (Prim2SF g)) as [[]|].
Qed.

Lemma float_leb_refl (f : float) :
  is_nan f = false -> (f <=? f)%float = true.
Proof.
  intros H. apply is_nan_false in H.
  rewrite leb_spec. unfold SFleb. now rewrite SFcompare_refl.
Qed.

End FloatOrder.

Section MinMax.
Import FloatFacts FloatOrder.

Lemma fold_pick (step : float -> float -> float) :
  (forall a b, step a b = a \/ step a b = b) ->
  forall rest first,
    fold_left step rest first = first \/ In (fold_left step rest first) rest.
Proof.
  intros Hstep. induction rest as [|item rest IH]; intros first; cbn.
  - now left.
  - destruct (IH (step first item)) as [E | E].
    + rewrite E. destruct (Hstep first item) as [-> | ->]; auto.
    + auto.
Qed.

Lemma least_bound (rest : list float) :
  forall first,
    is_nan first = false -> no_nan rest = true ->
    let m := fold_left least_step rest first in
    is_nan m = false /\ (m <=? first)%float = true
    /\ (forall a, In a rest -> (m <=? a)%float = true).
Proof.
  induction rest as [|item rest IH]; intros first Hf Hr; cbn [fold_left].
  - cbv zeta. split; [exact Hf|]. split; [now apply float_leb_refl|].
    intros a [].
  - cbn in Hr. apply andb_true_iff in Hr as [Hi Hr].
    apply negb_true_iff in Hi.
    assert (Hs : is_nan (least_step first item) = false
                 /\ (least_step first item <=? first)%float = true
                 /\ (least_step first item <=? item)%float = true).
    { unfold least_step. destruct (item <? first)%float eqn:E.
      - split; [exact Hi|].
        split; [now apply float_ltb_leb | now apply float_leb_refl].
      - split; [exact Hf|]. split; [now apply float_leb_refl|].
        now apply not_ltb_leb. }
    destruct Hs as (Hn & H1 & H2).
    destruct (IH (least_step first item) Hn Hr) as (Hm & Hle & Hall).
    cbv zeta. split; [exact Hm|]. split.
    + eapply float_leb_trans; eassumption.
    + intros a [<- | Ha];
        [eapply float_leb_trans; eassumption | now apply Hall].
Qed.

Lemma most_bound (rest : list float) :
  forall first,
    is_nan first = false -> no_nan rest = true ->
    let m := fold_left most_step rest first in
    is_nan m = false /\ (first <=? m)%float = true
    /\ (forall a, In a rest -> (a <=? m)%float = true).
Proof.
  induction rest as [|item rest IH]; intros first Hf Hr; cbn [fold_left].
  - cbv zeta. split; [exact Hf|]. split; [now apply float_leb_refl|].
    intros a [].
  - cbn in Hr. apply andb_true_iff in Hr as [Hi Hr].
    apply negb_true_iff in Hi.
    assert (Hs : is_nan (most_step first item) = false
                 /\ (first <=? most_step first item)%float = true
                 /\ (item <=? most_step first item)%float = true).
    { unfold most_step. destruct (first <? item)%float eqn:E.
      - split; [exact Hi|].
        split; [now apply float_ltb_leb | now apply float_leb_refl].
      - split; [exact Hf|]. split; [now apply float_leb_refl|].
        now apply not_ltb_leb. }
    destruct Hs as (Hn & H1 & H2).
    destruct (IH (most_step first item) Hn Hr) as (Hm & Hle & Hall).
    cbv zeta. split; [exact Hm|]. split.
    + eapply float_leb_trans; eassumption.
    + intros a [<- | Ha];
        [eapply float_leb_trans; eassumption | now apply Hall].
Qed.

Lemma py_min_In (l : list float) (m : float) : py_min l = Some m -> In m l.
Proof.
  destruct l as [|first rest]; [discriminate|]. cbn. intros [= <-].
  destruct (fold_pick least_step) with (rest := rest) (first := first)
    as [E | E].
  - intros a b. unfold least_step. destruct (b <? a)%float; auto.
  - left. symmetry. exact E.
  - right. exact E.
Qed.

Lemma py_max_In (l : list float) (m : float) : py_max l = Some m -> In m l.
Proof.
  destruct l as [|first rest]; [discriminate|]. cbn. intros [= <-].
  destruct (fold_pick most_step) with (rest := rest) (first := first)
    as [E | E].
  - intros a b. unfold most_step. destruct (a <? b)%float; auto.
  - left. symmetry. exact E.
  - right. exact E.
Qed.

Lemma py_min_le (l : list float) (m : float) :
  no_nan l = true -> py_min l = Some m ->
  forall a, In a l -> (m <=? a)%float = true.
Proof.
  destruct l as [|first rest]; [discriminate|]. cbn [no_nan forallb py_min].
  intros H [= <-]. apply andb_true_iff in H as [Hf Hr].
  apply negb_true_iff in Hf.
  destruct (least_bound rest first Hf Hr) as (_ & H1 & H2).
  intros a [<- | Ha]; [exact H1 | now apply H2].
Qed.

Lemma py_max_ge (l : list float) (m : float) :
  no_nan l = true -> py_max l = Some m ->
  forall a, In a l -> (a <=? m)%float = true.
Proof.
  destruct l as [|first rest]; [discriminate|]. cbn [no_nan forallb py_max].
  intros H [= <-]. apply andb_true_iff in H as [Hf Hr].
  apply negb_true_iff in Hf.
  destruct (most_bound rest first Hf Hr) as (_ & H1 & H2).
  intros a [<- | Ha]; [exact H1 | now apply H2].
Qed.

End MinMax.


Section Statistics.
Import PyStr PyStrFacts FloatFacts FloatOrder.

Lemma add_statistics_of (self : ExpenseManager)
  (stats : list (str * Stats.t)) (category : str) :
  add_statistics self stats category
  = match statistics_of self category with
    | Some st => dict_set stats category st
    | None => stats
    end.
Proof.
  unfold add_statistics, statistics_of.
  destruct (filter_by_category self category) as [|e es]; [reflexivity|].
  cbv zeta.
  destruct (py_min (List.map Expense.amount (e :: es))); [|reflexivity].
  destruct (py_max (List.map Expense.amount (e :: es))); reflexivity.
Qed.

Lemma statistics_of_records (self : ExpenseManager) (category : str) :
  has_records self category = true ->
  exists st, statistics_of self category = Some st.
Proof.
  unfold has_records, statistics_of.
  destruct (filter_by_category self category) as [|e es]; [discriminate|].
  intros _. cbn. eauto.
Qed.

Lemma statistics_of_fields (self : ExpenseManager) (category : str)
  (st : Stats.t) :
  statistics_of self category = Some st ->
  has_records self category = true
  /\ Stats.count st = List.length (filter_by_category self category)
  /\ Stats.total st = py_sum (amounts_of self category)
  /\ Stats.average st
     = (Stats.total st / float_of_nat (Stats.count st))%float
  /\ py_min (amounts_of self category) = Some (Stats.min st)
  /\ py_max (amounts_of self category) = Some (Stats.max st).
Proof.
  unfold statistics_of, has_records, amounts_of.
  destruct (filter_by_category self category) as [|e es]; [discriminate|].
  cbv zeta.
  destruct (py_min (List.map Expense.amount (e :: es))) as [least|];
    [|discriminate].
  destruct (py_max (List.map Expense.amount (e :: es))) as [most|];
    [|discriminate].
  intros [= <-]. cbn [Stats.count Stats.total Stats.average Stats.min
                       Stats.max].
  rewrite length_map. repeat split.
Qed.

Lemma statistics_get (self : ExpenseManager) (cats : list str) (c : str) :
  dict_get (fold_left (add_statistics self) cats []) c
  = if mem c cats then statistics_of self c else None.
Proof.
  induction cats as [|k cats IH] using rev_ind.
  - reflexivity.
  - rewrite fold_left_app. cbn [fold_left]. rewrite add_statistics_of.
    unfold mem in *. rewrite existsb_app. cbn [existsb].
    rewrite orb_false_r.
    destruct (eqb c k) eqn:E.
    + apply eqb_eq in E. subst k. rewrite orb_true_r.
      destruct (statistics_of self c) as [st|] eqn:S.
      * apply dict_get_set_same.
      * rewrite IH. now destruct (existsb (eqb c) cats).
    + rewrite orb_false_r. apply eqb_false_neq in E.
      destruct (statistics_of self k) as [st|]; [|exact IH].
      rewrite dict_get_set_other by congruence. exact IH.
Qed.

Lemma statistics_keys (self : ExpenseManager) (cats : list str) :
  NoDup cats ->
  forall acc,
    (forall c, In c cats -> ~ In c (dict_keys acc)) ->
    dict_keys (fold_left (add_statistics self) cats acc)
    = dict_keys acc ++ List.filter (has_records self) cats.
Proof.
  induction 1 as [|k cats Hk Hnd IH]; intros acc Hacc; cbn [fold_left].
  - cbn. now rewrite app_nil_r.
  - assert (Hfresh : mem k (dict_keys acc) = false).
    { destruct (mem k (dict_keys acc)) eqn:E; [|reflexivity].
      apply mem_In in E. exfalso. apply (Hacc k); [now left | exact E]. }
    rewrite add_statistics_of. cbn [List.filter].
    destruct (has_records self k) eqn:R.
    + destruct (statistics_of_records self k R) as [st ->].
      rewrite IH.
      * rewrite dict_keys_set, Hfresh, <- app_assoc. reflexivity.
      * intros c Hc. rewrite dict_keys_set, Hfresh, in_app_iff. cbn.
        intros [Hin | [-> | []]]; [|contradiction].
        apply (Hacc c); [now right | exact Hin].
    + destruct (statistics_of self k) as [st|] eqn:S.
      * apply statistics_of_fields in S as [S _]. congruence.
      * apply IH. intros c Hc. apply Hacc. now right.
Qed.

Lemma ExpenseCategory_NoDup : NoDup ExpenseCategory.
Proof.
  unfold ExpenseCategory. cbn.
  repeat (constructor;
          [cbn; intros H;
           repeat (destruct H as [H | H]; [discriminate H|]); exact H|]).
  constructor.
Qed.

(** X12. [get_category_statistics] has an entry for a category exactly when
    the category is one of the eight and the ledger has a record of it; a
    category without a record is left out, not filled with zeros.  In an
    entry the count is the number of records of the category, at least 1,
    the total is the sum of their amounts and the average is the total
    divided by the count. *)
Theorem category_statistics_entries :
  forall self category,
    (dict_get (get_category_statistics self) category = None
     <-> mem category ExpenseCategory = false
         \/ filter_by_category self category = [])
    /\ (forall st,
           dict_get (get_category_statistics self) category = Some st ->
           Stats.count st = List.length (filter_by_category self category)
           /\ (1 <= Stats.count st)%nat
           /\ Stats.total st = py_sum (amounts_of self category)
           /\ Stats.average st
              = (Stats.total st / float_of_nat (Stats.count st))%float).
Proof.
  intros self category. unfold get_category_statistics.
  rewrite statistics_get. split.
  - destruct (mem category ExpenseCategory); [|split; auto].
    split.
    + intros H. right.
      destruct (filter_by_category self category) as [|e es] eqn:F;
        [reflexivity|].
      destruct (statistics_of_records self category) as [st Hst].
      { unfold has_records. now rewrite F. }
      congruence.
    + intros [H | H]; [discriminate|].
      unfold statistics_of. now rewrite H.
  - intros st H.
    destruct (mem category ExpenseCategory); [|discriminate].
    apply statistics_of_fields in H as (R & Hc & Ht & Ha & _).
    repeat split; try assumption.
    rewrite Hc. unfold has_records in R.
    destruct (filter_by_category self category); [discriminate|].
    cbn. lia.
Qed.

Lemma category_statistics_entries_witness :
  let three :=
    mkManager (mkRepo (Json []) 0)
      [Expense.mk (lit "01012024") (lit "Food") (lit "lunch") 10 (lit "t1");
       Expense.mk (lit "02012024") (lit "Food") (lit "bread") 20 (lit "t2");
       Expense.mk (lit "03012024") (lit "Food") (lit "tea") 30 (lit "t3")]
  in
  let st := Stats.mk 3 60 20 10 30 in
  Stats.count st = List.length (filter_by_category three (lit "Food"))
  /\ (1 <= Stats.count st)%nat
  /\ Stats.total st = py_sum (amounts_of three (lit "Food"))
  /\ Stats.average st
     = (Stats.total st / float_of_nat (Stats.count st))%float.
Proof.
  intros three st.
  apply (proj2 (category_statistics_entries three (lit "Food")) st).
  reflexivity.
Defined.

(** X13. The statistics list the categories in the order of the
    enumeration, whatever the order of the records in the ledger: the keys
    are the eight labels, in their order, without those that have no
    record. *)
Theorem category_statistics_order :
  forall self,
    dict_keys (get_category_statistics self)
    = List.filter (has_records self) ExpenseCategory.
Proof.
  intros self. unfold get_category_statistics.
  rewrite (statistics_keys self ExpenseCategory ExpenseCategory_NoDup []).
  - reflexivity.
  - intros c _ [].
Qed.

(** X14. In an entry of the statistics, the minimum and the maximum are
    amounts of records of the category; and when no amount of the category is
    NaN, the minimum is below or equal to every amount of the category and
    the maximum above or equal. *)
Theorem category_statistics_min_max :
  forall self category st,
    dict_get (get_category_statistics self) category = Some st ->
    In (Stats.min st) (amounts_of self category)
    /\ In (Stats.max st) (amounts_of self category)
    /\ (no_nan (amounts_of self category) = true ->
        forall a,
          In a (amounts_of self category) ->
          (Stats.min st <=? a)%float = true
          /\ (a <=? Stats.max st)%float = true).
Proof.
  intros self category st H. unfold get_category_statistics in H.
  rewrite statistics_get in H.
  destruct (mem category ExpenseCategory); [|discriminate].
  apply statistics_of_fields in H as (_ & _ & _ & _ & Hmin & Hmax).
  split; [now apply py_min_In|]. split; [now apply py_max_In|].
  intros Hn a Ha. split.
  - now apply (py_min_le _ _ Hn Hmin).
  - now apply (py_max_ge _ _ Hn Hmax).
Qed.

Lemma category_statistics_min_max_witness :
  let three :=
    mkManager (mkRepo (Json []) 0)
      [Expense.mk (lit "01012024") (lit "Food") (lit "lunch") 20 (lit "t1");
       Expense.mk (lit "02012024") (lit "Food") (lit "bread") 10 (lit "t2");
       Expense.mk (lit "03012024") (lit "Food") (lit "tea") 30 (lit "t3")]
  in
  let st := Stats.mk 3 60 20 10 30 in
  In (Stats.min st) (amounts_of three (lit "Food"))
  /\ In (Stats.max st) (amounts_of three (lit "Food"))
  /\ (no_nan (amounts_of three (lit "Food")) = true ->
      forall a,
        In a (amounts_of three (lit "Food")) ->
        (Stats.min st <=? a)%float = true
        /\ (a <=? Stats.max st)%float = true).
Proof.
  intros three st.
  apply (category_statistics_min_max three (lit "Food") st).
  reflexivity.
Defined.

End Statistics.


Section EqualityAndRanges.
Import PyStr PyStrFacts FloatFacts FloatOrder.

(** X15. [__eq__] is symmetric and transitive, and a record is equal to
    itself exactly when its amount is not NaN: on records whose amount is a
    number it is an equivalence. *)
Theorem eq_is_equivalence_apart_from_nan :
  (forall a, Expense.__eq__ a a = negb (is_nan (Expense.amount a)))
  /\ (forall a b, Expense.__eq__ a b = Expense.__eq__ b a)
  /\ (forall a b c,
         Expense.__eq__ a b = true -> Expense.__eq__ b c = true ->
         Expense.__eq__ a c = true).
Proof.
  split; [|split].
  - intros a. unfold Expense.__eq__.
    now rewrite !eqb_refl, float_eqb_self.
  - intros a b. unfold Expense.__eq__.
    now rewrite (eqb_sym (Expense.date a)), (eqb_sym (Expense.category a)),
      (float_eqb_sym (Expense.amount a)).
  - intros a b c Hab Hbc.
    apply eq_iff in Hab as (Hd1 & Hc1 & Ha1).
    apply eq_iff in Hbc as (Hd2 & Hc2 & Ha2).
    apply eq_iff. repeat split; try congruence.
    eapply float_eqb_trans; eassumption.
Qed.

Lemma eq_is_equivalence_apart_from_nan_witness :
  Expense.__eq__
    (Expense.mk (lit "01012024") (lit "Food") (lit "lunch") 10.5 (lit "t1"))
    (Expense.mk (lit "01012024") (lit "Food") (lit "tea") 10.5 (lit "t3"))
  = true.
Proof.
  apply (proj2 (proj2 eq_is_equivalence_apart_from_nan)
           _ (Expense.mk (lit "01012024") (lit "Food") (lit "dinner") 10.5
                (lit "t2")));
    reflexivity.
Defined.

Lemma str_leb_trans (s t u : str) :
  leb s t = true -> leb t u = true -> leb s u = true.
Proof.
  rewrite !leb_lex. intros H. revert u.
  induction H as [t | c d s t Hlt | c s t _ IH]; intros u Hu.
  - constructor.
  - inversion Hu as [ | d' e t' u' Hlt' | d' t' u' Hle]; subst.
    + apply lex_lt. lia.
    + now apply lex_lt.
  - inversion Hu as [ | d' e t' u' Hlt' | d' t' u' Hle]; subst.
    + now apply lex_lt.
    + apply lex_eq. now apply IH.
Qed.

Lemma str_leb_antisym (s t : str) :
  leb s t = true -> leb t s = true -> s = t.
Proof.
  rewrite !leb_lex. intros H.
  induction H as [t | c d s t Hlt | c s t _ IH]; intros Ht.
  - now inversion Ht.
  - inversion Ht; subst; lia.
  - inversion Ht as [ | ? ? ? ? Hlt | ? ? ? Hle]; subst; [lia|].
    f_equal. now apply IH.
Qed.

(** X16. Degenerate date ranges.  When the start date is above the end date
    in the order of strings, [filter_by_date_range] returns nothing; when the
    two bounds are the same string, it returns the records with exactly that
    date. *)
Theorem filter_by_date_range_degenerate :
  (forall self start_date end_date,
      leb start_date end_date = false ->
      filter_by_date_range self start_date end_date = [])
  /\ (forall self date,
         filter_by_date_range self date date
         = List.filter (fun exp => eqb (Expense.date exp) date)
             (expenses self)).
Proof.
  split.
  - intros self start_date end_date H. unfold filter_by_date_range.
    apply filter_none. intros e _.
    destruct (leb start_date (Expense.date e)) eqn:E1; [|reflexivity].
    destruct (leb (Expense.date e) end_date) eqn:E2; [|reflexivity].
    rewrite (str_leb_trans _ _ _ E1 E2) in H. discriminate.
  - intros self date. unfold filter_by_date_range.
    apply filter_ext. intros e.
    destruct (eqb (Expense.date e) date) eqn:E.
    + apply eqb_eq in E. rewrite E. now rewrite leb_refl.
    + destruct (leb date (Expense.date e)) eqn:E1; [|reflexivity].
      destruct (leb (Expense.date e) date) eqn:E2; [|reflexivity].
      apply eqb_false_neq in E.
      now rewrite (str_leb_antisym _ _ E2 E1) in E.
Qed.

Lemma filter_by_date_range_degenerate_witness :
  filter_by_date_range
    (mkManager (mkRepo (Json []) 0)
       [Expense.mk (lit "15012024") (lit "Food") (lit "lunch") 10.5
          (lit "t1")])
    (lit "31012024") (lit "01012024")
  = [].
Proof.
  apply (proj1 filter_by_date_range_degenerate). reflexivity.
Defined.

End EqualityAndRanges.
